(** * TrendRadar: analysis-and-notification pipeline

    A shallow embedding of three modules of the repository,

    - [trendradar/core/config.py]     (module [Config]),
    - [trendradar/storage/manager.py] (module [Storage]),
    - [trendradar/__main__.py]        (module [Main]),

    together with the properties the specification states about them.

    Conventions.  A Python [str] is a Rocq [string] whose characters are
    code points below 256.  A Python [dict] with string keys is a
    [gmap string _]; [None] is [None]; an exception is a constructor of
    [Py.exn] carried by [Py.result] or by the pipeline monad of [Main]. *)

From Stdlib Require Import ZArith Ascii String List Bool Lia.
From stdpp Require Import gmap strings list fin_maps.

Local Open Scope string_scope.
Local Open Scope list_scope.

(* ===================================================================== *)
(** * Python primitives used by the three modules                        *)
(* ===================================================================== *)

Module Py.

Inductive exn : Type :=
| ImportError
| ValueError
| RuntimeError
| OtherException.

Inductive result (A : Type) : Type :=
| Ok (a : A)
| Raise (e : exn).
Arguments Ok {A} a.
Arguments Raise {A} e.

(** Truthiness of a [str]: every string but the empty one. *)
Definition truthy (s : string) : bool :=
  match s with
  | EmptyString => false
  | String _ _ => true
  end.

(** Truthiness of the result of [dict.get] / [os.environ.get]. *)
Definition truthy_opt (o : option string) : bool :=
  match o with
  | Some s => truthy s
  | None => false
  end.

(** [a or b] on optional strings. *)
Definition or_ (a b : option string) : option string :=
  if truthy_opt a then a else b.

(** [str.isspace] on one character (code points below 256). *)
Definition is_space (c : ascii) : bool :=
  let n := nat_of_ascii c in
  (Nat.leb 9 n && Nat.leb n 13) || (Nat.leb 28 n && Nat.leb n 32)
  || Nat.eqb n 133 || Nat.eqb n 160.

Fixpoint lstrip_l (s : list ascii) : list ascii :=
  match s with
  | [] => []
  | c :: s' => if is_space c then lstrip_l s' else s
  end.

Definition rstrip_l (s : list ascii) : list ascii := rev (lstrip_l (rev s)).

Definition strip_l (s : list ascii) : list ascii := rstrip_l (lstrip_l s).

(** [s.strip()] *)
Definition strip (s : string) : string :=
  string_of_list_ascii (strip_l (list_ascii_of_string s)).

Fixpoint is_prefix (p s : list ascii) : bool :=
  match p, s with
  | [], _ => true
  | _ :: _, [] => false
  | a :: p', b :: s' => Ascii.eqb a b && is_prefix p' s'
  end.

(** The scan of [str.split(sep)] for a non-empty [sep]: left to right,
    occurrences of [sep] do not overlap.  [skip] counts the characters of
    the occurrence just matched that are still to be passed over, [cur] is
    the field read so far. *)
Fixpoint split_go (sep s : list ascii) (skip : nat) (cur : list ascii)
  : list (list ascii) :=
  match s with
  | [] => [cur]
  | c :: s' =>
      match skip with
      | S k => split_go sep s' k cur
      | O =>
          if is_prefix sep s
          then cur :: split_go sep s' (length sep - 1) []
          else split_go sep s' 0 (cur ++ [c])
      end
  end.

Definition split_l (sep s : list ascii) : list (list ascii) :=
  split_go sep s 0 [].

(** [s.split(sep)]; an empty separator raises [ValueError]. *)
Definition split (s sep : string) : result (list string) :=
  match sep with
  | EmptyString => Raise ValueError
  | String _ _ =>
      Ok (map string_of_list_ascii
            (split_l (list_ascii_of_string sep) (list_ascii_of_string s)))
  end.

(** [sep.join(fields)] *)
Fixpoint join_l (sep : list ascii) (fields : list (list ascii)) : list ascii :=
  match fields with
  | [] => []
  | [f] => f
  | f :: rest => f ++ sep ++ join_l sep rest
  end.

Definition join (sep : string) (fields : list string) : string :=
  string_of_list_ascii
    (join_l (list_ascii_of_string sep) (map list_ascii_of_string fields)).

End Py.

(* ===================================================================== *)
(** * core/config.py                                                      *)
(* ===================================================================== *)

Module Config.

Import Py.

(** [all(not acc for acc in accounts)] *)
Definition all_empty (accounts : list string) : bool :=
  forallb (fun acc => negb (truthy acc)) accounts.

(** [parse_multi_account_config(config_value, separator)] *)
Definition parse_multi_account_config (config_value separator : string)
  : result (list string) :=
  if negb (truthy config_value) then Ok []
  else
    match split config_value separator with
    | Raise e => Raise e
    | Ok fields =>
        let accounts := map strip fields in
        if all_empty accounts then Ok [] else Ok accounts
    end.

(** The default value of the [separator] argument. *)
Definition default_separator : string := ";".

(** [{k: v for k, v in configs.items() if v}] *)
Definition non_empty (configs : gmap string (list string))
  : gmap string (list string) :=
  filter (fun kv => kv.2 ≠ []) configs.

(** One round of the loop over [required_keys]:
    [key not in non_empty_configs or not non_empty_configs[key]]. *)
Definition required_absent (ne : gmap string (list string)) (key : string)
  : bool :=
  match ne !! key with
  | None => true
  | Some v => bool_decide (v = [])
  end.

(** [set(lengths.values())] for [lengths = {k: len(v) ...}] *)
Definition unique_lengths (ne : gmap string (list string)) : gset nat :=
  list_to_set (map (fun kv => length kv.2) (map_to_list ne)).

(** [validate_paired_configs(configs, channel_name, required_keys)];
    the diagnostic it prints on a mismatch is not modelled. *)
Definition validate_paired_configs
    (configs : gmap string (list string)) (channel_name : string)
    (required_keys : option (list string)) : bool * nat :=
  let non_empty_configs := non_empty configs in
  if bool_decide (non_empty_configs = ∅) then (true, 0)
  else if existsb (required_absent non_empty_configs)
            (default [] required_keys)
  then (true, 0)
  else
    let ul := unique_lengths non_empty_configs in
    if bool_decide (1 < size ul) then (false, 0)
    else (true, default 0 (head (elements ul))).

End Config.

(* ===================================================================== *)
(** * storage/manager.py                                                  *)
(* ===================================================================== *)

Module Storage.

Import Py.

(** The two implementations of [StorageBackend], with the arguments their
    constructors receive from the manager. *)
Inductive StorageBackend : Type :=
| LocalStorageBackend (data_dir : string) (enable_txt enable_html : bool)
    (timezone : string)
| RemoteStorageBackend
    (bucket_name access_key_id secret_access_key endpoint_url region : string)
    (enable_txt enable_html : bool) (timezone : string).

Definition is_remote (b : StorageBackend) : bool :=
  match b with
  | RemoteStorageBackend _ _ _ _ _ _ _ _ => true
  | LocalStorageBackend _ _ _ _ => false
  end.

(** The fields of a [StorageManager] instance. *)
Record StorageManager : Type := {
  backend_type : string;
  data_dir : string;
  enable_txt : bool;
  enable_html : bool;
  remote_config : gmap string string;
  local_retention_days : Z;
  remote_retention_days : Z;
  pull_enabled : bool;
  pull_days : Z;
  timezone : string;
  _backend : option StorageBackend;
  _remote_backend : option StorageBackend;
}.

Definition set_backend (m : StorageManager) (b : option StorageBackend)
  : StorageManager :=
  {| backend_type := backend_type m; data_dir := data_dir m;
     enable_txt := enable_txt m; enable_html := enable_html m;
     remote_config := remote_config m;
     local_retention_days := local_retention_days m;
     remote_retention_days := remote_retention_days m;
     pull_enabled := pull_enabled m; pull_days := pull_days m;
     timezone := timezone m;
     _backend := b; _remote_backend := _remote_backend m |}.

Definition set_remote_backend (m : StorageManager) (b : option StorageBackend)
  : StorageManager :=
  {| backend_type := backend_type m; data_dir := data_dir m;
     enable_txt := enable_txt m; enable_html := enable_html m;
     remote_config := remote_config m;
     local_retention_days := local_retention_days m;
     remote_retention_days := remote_retention_days m;
     pull_enabled := pull_enabled m; pull_days := pull_days m;
     timezone := timezone m;
     _backend := _backend m; _remote_backend := b |}.

(** What the manager reads from the process it runs in. *)
Record Process : Type := {
  (** [os.environ] *)
  environ : gmap string string;
  (** Modelled from the spec: [trendradar/storage/remote.py] is not among
      the sources.  The outcome of importing it and of running the
      constructor of [RemoteStorageBackend] on the given backend value:
      [None] when both succeed, [Some e] when one of them raises [e]
      ("missing dependency, bad credentials, exception"). *)
  remote_failure : StorageBackend -> option exn;
}.

(** [is_github_actions()] *)
Definition is_github_actions (p : Process) : bool :=
  bool_decide (environ p !! "GITHUB_ACTIONS" = Some "true").

(** [self.remote_config.get(cfg_key) or os.environ.get(env_key)] *)
Definition credential (m : StorageManager) (p : Process)
    (cfg_key env_key : string) : option string :=
  or_ (remote_config m !! cfg_key) (environ p !! env_key).

(** [a and b] on optional strings. *)
Definition and_ (a b : option string) : option string :=
  if truthy_opt a then b else a.

(** [_has_remote_config] *)
Definition _has_remote_config (m : StorageManager) (p : Process) : bool :=
  let bucket_name := credential m p "bucket_name" "S3_BUCKET_NAME" in
  let access_key := credential m p "access_key_id" "S3_ACCESS_KEY_ID" in
  let secret_key :=
    credential m p "secret_access_key" "S3_SECRET_ACCESS_KEY" in
  let endpoint := credential m p "endpoint_url" "S3_ENDPOINT_URL" in
  truthy_opt (and_ (and_ (and_ bucket_name access_key) secret_key) endpoint).

(** [_resolve_backend_type] *)
Definition _resolve_backend_type (m : StorageManager) (p : Process) : string :=
  if String.eqb (backend_type m) "auto" then
    if is_github_actions p then
      if _has_remote_config m p then "remote" else "local"
    else "local"
  else backend_type m.

(** [self.remote_config.get(cfg_key) or os.environ.get(env_key, "")] *)
Definition credential_or_empty (m : StorageManager) (p : Process)
    (cfg_key env_key : string) : string :=
  default "" (or_ (remote_config m !! cfg_key)
                  (Some (default "" (environ p !! env_key)))).

(** The backend value the [try] block of [_create_remote_backend] builds. *)
Definition remote_backend_of (m : StorageManager) (p : Process)
  : StorageBackend :=
  RemoteStorageBackend
    (credential_or_empty m p "bucket_name" "S3_BUCKET_NAME")
    (credential_or_empty m p "access_key_id" "S3_ACCESS_KEY_ID")
    (credential_or_empty m p "secret_access_key" "S3_SECRET_ACCESS_KEY")
    (credential_or_empty m p "endpoint_url" "S3_ENDPOINT_URL")
    (credential_or_empty m p "region" "S3_REGION")
    (enable_txt m) (enable_html m) (timezone m).

(** The [try] block of [_create_remote_backend], which may raise. *)
Definition construct_remote (m : StorageManager) (p : Process)
  : result StorageBackend :=
  let b := remote_backend_of m p in
  match remote_failure p b with
  | Some e => Raise e
  | None => Ok b
  end.

(** [_create_remote_backend]: both handlers return [None]. *)
Definition _create_remote_backend (m : StorageManager) (p : Process)
  : option StorageBackend :=
  match construct_remote m p with
  | Ok b => Some b
  | Raise ImportError => None
  | Raise _ => None
  end.

(** Modelled from the spec: [trendradar/storage/local.py] is not among the
    sources; constructing the Local backend yields a backend. *)
Definition local_backend_of (m : StorageManager) : StorageBackend :=
  LocalStorageBackend (data_dir m) (enable_txt m) (enable_html m) (timezone m).

(** [get_backend]: the backend it returns and the manager after the call. *)
Definition get_backend (m : StorageManager) (p : Process)
  : StorageBackend * StorageManager :=
  match _backend m with
  | Some b => (b, m)
  | None =>
      let resolved_type := _resolve_backend_type m p in
      let '(backend, resolved_type) :=
        if String.eqb resolved_type "remote" then
          match _create_remote_backend m p with
          | Some b => (Some b, resolved_type)
          | None => (None, "local")
          end
        else (None, resolved_type) in
      match backend with
      | Some b =>
          if String.eqb resolved_type "local"
          then let l := local_backend_of m in (l, set_backend m (Some l))
          else (b, set_backend m (Some b))
      | None => let l := local_backend_of m in (l, set_backend m (Some l))
      end
  end.

(** The persisted day-buckets of the two stores, each bucket named by the
    number of its calendar day. *)
Record Buckets : Type := {
  local_buckets : list Z;
  remote_buckets : list Z;
}.

(** Modelled from the spec: the backends' [cleanup_old_data] is not among
    the sources.  "Deletes day-buckets older than [retention_days] relative
    to the current day; [retention_days = 0] means never delete." *)
Definition expired (today retention_days day : Z) : bool :=
  (0 <? retention_days)%Z && (day <? today - retention_days)%Z.

Definition sweep (today retention_days : Z) (days : list Z) : Z * list Z :=
  (Z.of_nat (length (filter (fun d => expired today retention_days d = true) days)),
   filter (fun d => expired today retention_days d = false) days).

Definition backend_cleanup_old_data (today : Z) (b : StorageBackend)
    (retention_days : Z) (s : Buckets) : Z * Buckets :=
  if is_remote b then
    let '(n, kept) := sweep today retention_days (remote_buckets s) in
    (n, {| local_buckets := local_buckets s; remote_buckets := kept |})
  else
    let '(n, kept) := sweep today retention_days (local_buckets s) in
    (n, {| local_buckets := kept; remote_buckets := remote_buckets s |}).

(** [cleanup_old_data]: the count it returns, the manager and the stores
    after the call. *)
Definition cleanup_old_data (today : Z) (m : StorageManager) (p : Process)
    (s : Buckets) : Z * StorageManager * Buckets :=
  let total_deleted := 0%Z in
  let '(total_deleted, m, s) :=
    if (0 <? local_retention_days m)%Z then
      let '(b, m) := get_backend m p in
      let '(n, s) :=
        backend_cleanup_old_data today b (local_retention_days m) s in
      ((total_deleted + n)%Z, m, s)
    else (total_deleted, m, s) in
  if (0 <? remote_retention_days m)%Z && _has_remote_config m p then
    let m :=
      match _remote_backend m with
      | None => set_remote_backend m (_create_remote_backend m p)
      | Some _ => m
      end in
    match _remote_backend m with
    | Some rb =>
        let '(n, s) :=
          backend_cleanup_old_data today rb (remote_retention_days m) s in
        ((total_deleted + n)%Z, m, s)
    | None => (total_deleted, m, s)
    end
  else (total_deleted, m, s).

End Storage.

(* ===================================================================== *)
(** * __main__.py                                                         *)
(* ===================================================================== *)

Module Main.

Import Py.

(** One entry of [MODE_STRATEGIES]. *)
Record ModeStrategy : Type := {
  mode_name : string;
  description : string;
  realtime_report_type : string;
  summary_report_type : string;
  should_send_realtime : bool;
  should_generate_summary : bool;
  summary_mode : string;
}.

Definition incremental_strategy : ModeStrategy :=
  {| mode_name := "Incremental Mode";
     description := "Incremental mode (only new news, no push if nothing new)";
     realtime_report_type := "Real-time Incremental";
     summary_report_type := "Daily Summary";
     should_send_realtime := true;
     should_generate_summary := true;
     summary_mode := "daily" |}.

Definition current_strategy : ModeStrategy :=
  {| mode_name := "Current Rankings Mode";
     description := "Current rankings mode (current matches + new news section + scheduled push)";
     realtime_report_type := "Real-time Current Rankings";
     summary_report_type := "Current Rankings Summary";
     should_send_realtime := true;
     should_generate_summary := true;
     summary_mode := "current" |}.

Definition daily_strategy : ModeStrategy :=
  {| mode_name := "Daily Summary Mode";
     description := "Daily summary mode (all matches + new news section + scheduled push)";
     realtime_report_type := "";
     summary_report_type := "Daily Summary";
     should_send_realtime := false;
     should_generate_summary := true;
     summary_mode := "daily" |}.

Definition MODE_STRATEGIES : gmap string ModeStrategy :=
  <["incremental" := incremental_strategy]>
    (<["current" := current_strategy]>
       (<["daily" := daily_strategy]> ∅)).

(** [d.get(key, fallback)] *)
Definition dict_get {V : Type} (d : gmap string V) (key : string) (fallback : V)
  : V :=
  match d !! key with
  | Some v => v
  | None => fallback
  end.

(** [_get_mode_strategy]; the fallback [MODE_STRATEGIES["daily"]] is the
    entry stored under that key. *)
Definition _get_mode_strategy (report_mode : string) : ModeStrategy :=
  dict_get MODE_STRATEGIES report_mode
    (dict_get MODE_STRATEGIES "daily" daily_strategy).

(** A [Stat] of the frequency engine; only [count] is read here. *)
Record Stat : Type := {
  word : string;
  count : Z;
}.

(** [any(len(titles) > 0 for titles in new_titles.values())] *)
Definition any_titles (new_titles : gmap string (list string)) : bool :=
  existsb (fun kv => Nat.ltb 0 (length kv.2)) (map_to_list new_titles).

(** [bool(new_titles and any(...))] for an optional dict: [None] and the
    empty dict are falsy. *)
Definition has_new (new_titles : option (gmap string (list string))) : bool :=
  match new_titles with
  | None => false
  | Some d => negb (bool_decide (d = ∅)) && any_titles d
  end.

(** [any(stat["count"] > 0 for stat in stats)] *)
Definition has_matched (stats : list Stat) : bool :=
  existsb (fun stat => (0 <? count stat)%Z) stats.

(** [_has_valid_content] *)
Definition _has_valid_content (report_mode : string) (stats : list Stat)
    (new_titles : option (gmap string (list string))) : bool :=
  if String.eqb report_mode "incremental" then
    let has_new_titles := has_new new_titles in
    let has_matched_news := has_matched stats in
    has_new_titles && has_matched_news
  else if String.eqb report_mode "current" then
    has_matched stats
  else
    let has_matched_news := has_matched stats in
    let has_new_news := has_new new_titles in
    has_matched_news || has_new_news.

(** The entries of the configuration the pipeline reads.  The push window
    bounds are minutes since midnight. *)
Record Config : Type := {
  REPORT_MODE : string;
  ENABLE_NOTIFICATION : bool;
  FEISHU_WEBHOOK_URL : string;
  DINGTALK_WEBHOOK_URL : string;
  WEWORK_WEBHOOK_URL : string;
  TELEGRAM_BOT_TOKEN : string;
  TELEGRAM_CHAT_ID : string;
  EMAIL_FROM : string;
  EMAIL_PASSWORD : string;
  EMAIL_TO : string;
  NTFY_SERVER_URL : string;
  NTFY_TOPIC : string;
  BARK_URL : string;
  SLACK_WEBHOOK_URL : string;
  PUSH_WINDOW_ENABLED : bool;
  PUSH_WINDOW_START : Z;
  PUSH_WINDOW_END : Z;
  PUSH_WINDOW_ONCE_PER_DAY : bool;
  STORAGE_FORMATS_HTML : bool;
  STORAGE_FORMATS_TXT : bool;
}.

(** [_has_notification_configured] *)
Definition _has_notification_configured (cfg : Config) : bool :=
  existsb (fun b => b)
    [ truthy (FEISHU_WEBHOOK_URL cfg);
      truthy (DINGTALK_WEBHOOK_URL cfg);
      truthy (WEWORK_WEBHOOK_URL cfg);
      truthy (TELEGRAM_BOT_TOKEN cfg) && truthy (TELEGRAM_CHAT_ID cfg);
      truthy (EMAIL_FROM cfg) && truthy (EMAIL_PASSWORD cfg)
        && truthy (EMAIL_TO cfg);
      truthy (NTFY_SERVER_URL cfg) && truthy (NTFY_TOPIC cfg);
      truthy (BARK_URL cfg);
      truthy (SLACK_WEBHOOK_URL cfg) ].

(** Platform id to the titles listed for it. *)
Abbreviation Results := (gmap string (list string)).

(** The application context and the external collaborators, as the
    interfaces the pipeline consumes: what each call answers in this run. *)
Record Context : Type := {
  config : Config;
  (** local time of the run, minutes since midnight *)
  now : Z;
  (** [data_fetcher.crawl_websites]: the results and the failed ids *)
  crawl_websites : Results * list string;
  (** [storage_manager.save_news_data] *)
  save_news_data : bool;
  (** [ctx.read_today_titles]: the accumulated day, or an exception *)
  read_today_titles : result Results;
  (** [ctx.detect_new_titles] *)
  detect_new_titles : gmap string (list string);
  (** what [ctx.load_frequency_words] raises, if it raises *)
  load_frequency_words : option exn;
  (** [ctx.count_frequency data_source mode new_titles] *)
  count_frequency : Results -> string -> gmap string (list string) -> list Stat;
  (** [ctx.generate_html stats mode is_daily_summary] *)
  generate_html : list Stat -> string -> bool -> option string;
  (** [dispatcher.dispatch_all report_type mode stats]: success per channel *)
  dispatch_all : string -> string -> list Stat -> gmap string bool;
}.

(** What a run does, in order: the calls that reach a collaborator, and
    the entry into either variant of the summary stage. *)
Inductive Event : Type :=
(** [storage_manager.save_news_data] and what it answered *)
| EvSave (ok : bool)
(** [ctx.generate_html] *)
| EvHtml (mode : string) (is_daily_summary : bool)
(** [dispatcher.dispatch_all] *)
| EvDispatch (report_type mode : string)
(** [push_manager.record_push] *)
| EvRecordPush (report_type : string)
(** [_generate_summary_html] entered *)
| EvSummaryHtml (mode : string)
(** [_generate_summary_report] entered *)
| EvSummaryReport (summary_type : string)
(** [ctx.cleanup] *)
| EvCleanup.

(** The state a run threads: the push records of the current day and the
    trace of events, oldest first. *)
Record State : Type := {
  push_records : list string;
  trace : list Event;
}.

(** The pipeline monad: state passing with exceptions; the state reached
    when an exception is raised is kept for the [finally] clause. *)
Definition M (A : Type) : Type := State -> result A * State.

Definition ret {A : Type} (a : A) : M A := fun st => (Ok a, st).

Definition bind {A B : Type} (c : M A) (k : A -> M B) : M B :=
  fun st =>
    match c st with
    | (Ok a, st') => k a st'
    | (Raise e, st') => (Raise e, st')
    end.

Definition raise {A : Type} (e : exn) : M A := fun st => (Raise e, st).

Definition emit (ev : Event) : M unit :=
  fun st =>
    (Ok tt, {| push_records := push_records st; trace := trace st ++ [ev] |}).

(** [try: c finally: f] *)
Definition finally {A : Type} (c : M A) (f : M unit) : M A :=
  fun st =>
    match c st with
    | (r, st') =>
        match f st' with
        | (Ok _, st'') => (r, st'')
        | (Raise e, st'') => (Raise e, st'')
        end
    end.

Notation "x <- c ;; k" := (bind c (fun x => k))
  (at level 100, c at next level, right associativity).
Notation "c ;;; k" := (bind c (fun _ => k))
  (at level 100, right associativity).

(** Modelled from the spec: the push manager behind
    [ctx.create_push_manager()] is not among the sources.  The window is
    "[start, end], inclusive, same-day; an end earlier than start is
    treated as not matching". *)
Definition is_in_time_range (c : Context) (start_ end_ : Z) : bool :=
  (start_ <=? now c)%Z && (now c <=? end_)%Z.

(** Modelled from the spec: [has_pushed_today] answers whether a push is
    on record for the current day. *)
Definition has_pushed_today : M bool :=
  fun st =>
    (Ok (match push_records st with [] => false | _ :: _ => true end), st).

(** Modelled from the spec: [record_push] puts one record for the report
    type on the current day. *)
Definition record_push (report_type : string) : M unit :=
  fun st =>
    (Ok tt, {| push_records := push_records st ++ [report_type];
               trace := trace st ++ [EvRecordPush report_type] |}).

(** [any(results.values())] *)
Definition any_success (results : gmap string bool) : bool :=
  existsb (fun kv => kv.2) (map_to_list results).

(** [_send_notification_if_needed] *)
Definition _send_notification_if_needed (c : Context) (stats : list Stat)
    (report_type mode : string)
    (new_titles : option (gmap string (list string))) : M bool :=
  let has_notification := _has_notification_configured (config c) in
  let cfg := config c in
  if ENABLE_NOTIFICATION cfg && has_notification
     && _has_valid_content (REPORT_MODE cfg) stats new_titles
  then
    window_open <-
      (if PUSH_WINDOW_ENABLED cfg then
         if negb (is_in_time_range c (PUSH_WINDOW_START cfg)
                    (PUSH_WINDOW_END cfg))
         then ret false
         else if PUSH_WINDOW_ONCE_PER_DAY cfg then
           pushed <- has_pushed_today ;;
           if pushed then ret false else ret true
         else ret true
       else ret true) ;;
    if negb window_open then ret false
    else
      emit (EvDispatch report_type mode) ;;;
      let results := dispatch_all c report_type mode stats in
      if bool_decide (results = ∅) then ret false
      else
        (if PUSH_WINDOW_ENABLED cfg && PUSH_WINDOW_ONCE_PER_DAY cfg
            && any_success results
         then record_push report_type
         else ret tt) ;;;
        ret true
  else ret false.

(** [_load_analysis_data]: the results of the day and the new titles, or
    [None]; any exception inside is caught. *)
Definition _load_analysis_data (c : Context)
  : option (Results * gmap string (list string)) :=
  match read_today_titles c with
  | Raise _ => None
  | Ok all_results =>
      if bool_decide (all_results = ∅) then None
      else
        let new_titles := detect_new_titles c in
        match load_frequency_words c with
        | Some _ => None
        | None => Some (all_results, new_titles)
        end
  end.

(** [_run_analysis_pipeline] *)
Definition _run_analysis_pipeline (c : Context) (data_source : Results)
    (mode : string) (new_titles : gmap string (list string))
    (is_daily_summary : bool) : M (list Stat * option string) :=
  let stats := count_frequency c data_source mode new_titles in
  if STORAGE_FORMATS_HTML (config c) then
    emit (EvHtml mode is_daily_summary) ;;;
    ret (stats, generate_html c stats mode is_daily_summary)
  else ret (stats, None).

(** [_generate_summary_report] *)
Definition _generate_summary_report (c : Context) (mode_strategy : ModeStrategy)
  : M (option string) :=
  let summary_type :=
    if String.eqb (summary_mode mode_strategy) "current"
    then "Current Rankings Summary" else "Daily Summary" in
  emit (EvSummaryReport summary_type) ;;;
  match _load_analysis_data c with
  | None => ret None
  | Some (all_results, new_titles) =>
      r <- _run_analysis_pipeline c all_results (summary_mode mode_strategy)
             new_titles true ;;
      let '(stats, html_file) := r in
      _send_notification_if_needed c stats
        (summary_report_type mode_strategy) (summary_mode mode_strategy)
        (Some new_titles) ;;;
      ret html_file
  end.

(** [_generate_summary_html] *)
Definition _generate_summary_html (c : Context) (mode : string)
  : M (option string) :=
  emit (EvSummaryHtml mode) ;;;
  match _load_analysis_data c with
  | None => ret None
  | Some (all_results, new_titles) =>
      r <- _run_analysis_pipeline c all_results mode new_titles true ;;
      ret (snd r)
  end.

(** [_crawl_data]: the crawl and the save of its data; the TXT snapshots
    written next have no bearing on what follows. *)
Definition _crawl_data (c : Context) : M (Results * list string) :=
  emit (EvSave (save_news_data c)) ;;;
  ret (crawl_websites c).

(** [_execute_mode_strategy]; saving the titles as TXT at the start and
    opening the browser at the end are left out.  The frequency words are
    loaded before anything else and outside every [try]: what the loader
    raises leaves the function. *)
Definition _execute_mode_strategy (c : Context) (mode_strategy : ModeStrategy)
    (results : Results) (failed_ids : list string) : M (option string) :=
  let report_mode := REPORT_MODE (config c) in
  let new_titles := detect_new_titles c in
  match load_frequency_words c with
  | Some e => raise e
  | None => ret tt
  end ;;;
  (if String.eqb report_mode "current" then
     match _load_analysis_data c with
     | Some (all_results, historical_new_titles) =>
         r <- _run_analysis_pipeline c all_results report_mode
                historical_new_titles false ;;
         let '(stats, html_file) := r in
         if should_send_realtime mode_strategy then
           _send_notification_if_needed c stats
             (realtime_report_type mode_strategy) report_mode
             (Some historical_new_titles) ;;;
           ret tt
         else ret tt
     | None => raise RuntimeError
     end
   else
     r <- _run_analysis_pipeline c results report_mode new_titles false ;;
     let '(stats, html_file) := r in
     if should_send_realtime mode_strategy then
       _send_notification_if_needed c stats
         (realtime_report_type mode_strategy) report_mode
         (Some new_titles) ;;;
       ret tt
     else ret tt) ;;;
  if should_generate_summary mode_strategy then
    if should_send_realtime mode_strategy then
      _generate_summary_html c (summary_mode mode_strategy)
    else
      _generate_summary_report c mode_strategy
  else ret None.

(** [run]: the handler re-raises, the [finally] clause cleans up. *)
Definition run (c : Context) : M unit :=
  finally
    (let mode_strategy := _get_mode_strategy (REPORT_MODE (config c)) in
     r <- _crawl_data c ;;
     let '(results, failed_ids) := r in
     _execute_mode_strategy c mode_strategy results failed_ids ;;;
     ret tt)
    (emit EvCleanup).

Definition initial_state (push_records : list string) : State :=
  {| push_records := push_records; trace := [] |}.

End Main.

(* ===================================================================== *)
(** * core/config.py: limiting and indexing                               *)
(* ===================================================================== *)

Module Accounts.

Import Py.

(** [l[:stop]]: a negative [stop] counts from the end. *)
Definition slice_to {A : Type} (l : list A) (stop : Z) : list A :=
  if (0 <=? stop)%Z then take (Z.to_nat stop) l
  else take (length l - Z.to_nat (- stop)) l.

(** [limit_accounts(accounts, max_count, channel_name)]; the warning it
    prints is not modelled. *)
Definition limit_accounts (accounts : list string) (max_count : Z)
    (channel_name : string) : list string :=
  if (max_count <? Z.of_nat (length accounts))%Z
  then slice_to accounts max_count
  else accounts.

(** What indexing a list answers: a value, or [IndexError]. *)
Inductive indexed (A : Type) : Type :=
| Value (a : A)
| IndexError.
Arguments Value {A} a.
Arguments IndexError {A}.

(** [l[index]]: a negative [index] counts from the end. *)
Definition getitem {A : Type} (l : list A) (index : Z) : indexed A :=
  let position :=
    if (0 <=? index)%Z then index else (Z.of_nat (length l) + index)%Z in
  if (position <? 0)%Z then IndexError
  else
    match l !! Z.to_nat position with
    | Some a => Value a
    | None => IndexError
    end.

(** [get_account_at_index(accounts, index, default)] *)
Definition get_account_at_index (accounts : list string) (index : Z)
    (default : string) : indexed string :=
  if (index <? Z.of_nat (length accounts))%Z then
    match getitem accounts index with
    | Value a => Value (if truthy a then a else default)
    | IndexError => IndexError
    end
  else Value default.

End Accounts.

(* ===================================================================== *)
(** * storage/manager.py: pulling and the singleton                       *)
(* ===================================================================== *)

Module StorageOps.

Import Py Storage.

Section Pull.

(** [pull_recent_days(days, data_dir)] of a backend: the number of files it
    pulled.  [trendradar/storage/remote.py] is not among the sources, so the
    method is a parameter. *)
Variable pull_recent_days : StorageBackend -> Z -> string -> Z.

(** [pull_from_remote]: the count it returns and the manager after the
    call. *)
Definition pull_from_remote (m : StorageManager) (p : Process)
  : Z * StorageManager :=
  if negb (pull_enabled m) || (pull_days m <=? 0)%Z then (0%Z, m)
  else if negb (_has_remote_config m p) then (0%Z, m)
  else
    let m :=
      match _remote_backend m with
      | None => set_remote_backend m (_create_remote_backend m p)
      | Some _ => m
      end in
    match _remote_backend m with
    | None => (0%Z, m)
    | Some rb => (pull_recent_days rb (pull_days m) (data_dir m), m)
    end.

End Pull.

(** The arguments of [StorageManager(...)] and of [get_storage_manager]. *)
Record ManagerArgs : Type := {
  arg_backend_type : string;
  arg_data_dir : string;
  arg_enable_txt : bool;
  arg_enable_html : bool;
  arg_remote_config : option (gmap string string);
  arg_local_retention_days : Z;
  arg_remote_retention_days : Z;
  arg_pull_enabled : bool;
  arg_pull_days : Z;
  arg_timezone : string;
}.

(** [StorageManager.__init__]; [remote_config or {}] turns [None] into the
    empty dict. *)
Definition __init__ (a : ManagerArgs) : StorageManager :=
  {| backend_type := arg_backend_type a;
     data_dir := arg_data_dir a;
     enable_txt := arg_enable_txt a;
     enable_html := arg_enable_html a;
     remote_config := default ∅ (arg_remote_config a);
     local_retention_days := arg_local_retention_days a;
     remote_retention_days := arg_remote_retention_days a;
     pull_enabled := arg_pull_enabled a;
     pull_days := arg_pull_days a;
     timezone := arg_timezone a;
     _backend := None;
     _remote_backend := None |}.

(** The state of the module: the [StorageManager] objects that exist, each
    known by its position, and the module-level [_storage_manager], which is
    [None] or refers to one of them. *)
Record ModuleState : Type := {
  objects : list StorageManager;
  _storage_manager : option nat;
}.

(** [StorageManager(...)]: a new object, and the reference to it. *)
Definition new_manager (w : ModuleState) (a : ManagerArgs)
  : nat * ModuleState :=
  (length (objects w),
   {| objects := objects w ++ [__init__ a];
      _storage_manager := _storage_manager w |}).

(** [get_storage_manager(..., force_new)]: the reference it returns and the
    module state after the call. *)
Definition get_storage_manager (w : ModuleState) (a : ManagerArgs)
    (force_new : bool) : nat * ModuleState :=
  match _storage_manager w with
  | Some r =>
      if force_new then
        let '(r', w') := new_manager w a in
        (r', {| objects := objects w'; _storage_manager := Some r' |})
      else (r, w)
  | None =>
      let '(r', w') := new_manager w a in
      (r', {| objects := objects w'; _storage_manager := Some r' |})
  end.

(** [manager.get_backend()] through a reference: the object is updated in
    place.  A reference to no object answers [None]. *)
Definition call_get_backend (w : ModuleState) (r : nat) (p : Process)
  : option StorageBackend * ModuleState :=
  match objects w !! r with
  | Some m =>
      let '(b, m') := get_backend m p in
      (Some b,
       {| objects := <[r := m']> (objects w);
          _storage_manager := _storage_manager w |})
  | None => (None, w)
  end.

End StorageOps.

(* ===================================================================== *)
(** * __main__.py: the version check                                      *)
(* ===================================================================== *)

Module Version.

Import Py.

Section CheckVersion.

(** Python's [int] on a string: the integer, or [None] for [ValueError]. *)
Variable int_ : string -> option Z.

(** [parse_version]: three integers, and (0, 0, 0) for whatever raises
    inside (a wrong number of parts, a part that is no integer). *)
Definition parse_version (version_str : string) : Z * Z * Z :=
  match split (strip version_str) "." with
  | Ok [a; b; c] =>
      match int_ a, int_ b, int_ c with
      | Some x, Some y, Some z => (x, y, z)
      | _, _, _ => (0, 0, 0)%Z
      end
  | _ => (0, 0, 0)%Z
  end.

(** [<] on tuples of three integers. *)
Definition tuple_lt (v w : Z * Z * Z) : bool :=
  let '(a, b, c) := v in
  let '(x, y, z) := w in
  (a <? x)%Z
  || ((a =? x)%Z && ((b <? y)%Z || ((b =? y)%Z && (c <? z)%Z))).

(** [check_version_update(current_version, version_url, proxy_url)];
    [response] is the text [requests.get] brought back, or the exception the
    request or [raise_for_status] raised. *)
Definition check_version_update (current_version : string)
    (response : result string) : bool * option string :=
  match response with
  | Raise _ => (false, None)
  | Ok text =>
      let remote_version := strip text in
      let current_tuple := parse_version current_version in
      let remote_tuple := parse_version remote_version in
      let need_update := tuple_lt current_tuple remote_tuple in
      (need_update, if need_update then Some remote_version else None)
  end.

End CheckVersion.

End Version.

(* ===================================================================== *)
(** * Docker detection, in storage/manager.py and in __main__.py          *)
(* ===================================================================== *)

Module Docker.

Import Py.

(** What reading [/proc/1/cgroup] gives. *)
Inductive CgroupRead : Type :=
| Contents (text : string)
| FileNotFoundError
| PermissionError
| OtherFailure (e : exn).

(** What the two detections look at. *)
Record Machine : Type := {
  (** [os.path.exists("/.dockerenv")] *)
  dockerenv : bool;
  cgroup : CgroupRead;
  (** [os.environ.get("DOCKER_CONTAINER")] *)
  docker_container : option string;
}.

(** [needle in text] *)
Fixpoint contains_l (needle text : list ascii) : bool :=
  is_prefix needle text
  || match text with
     | [] => false
     | _ :: text' => contains_l needle text'
     end.

Definition contains (needle text : string) : bool :=
  contains_l (list_ascii_of_string needle) (list_ascii_of_string text).

Definition env_says_docker (mc : Machine) : bool :=
  bool_decide (docker_container mc = Some "true").

(** [StorageManager.is_docker] *)
Definition is_docker (mc : Machine) : result bool :=
  if dockerenv mc then Ok true
  else
    match cgroup mc with
    | Contents text => Ok (contains "docker" text)
    | FileNotFoundError | PermissionError => Ok (env_says_docker mc)
    | OtherFailure e => Raise e
    end.

(** [NewsAnalyzer._detect_docker_environment] *)
Definition _detect_docker_environment (mc : Machine) : bool :=
  if env_says_docker mc then true
  else if dockerenv mc then true
  else false.

End Docker.


(* ===================================================================== *)
(** * Facts about the Python primitives                                   *)
(* ===================================================================== *)

Module PyFacts.

Import Py.

Lemma truthy_false (s : string) : truthy s = false <-> s = "".
Proof. destruct s; simpl; split; congruence. Qed.

Lemma truthy_true (s : string) : truthy s = true <-> s <> "".
Proof. destruct s; simpl; split; congruence. Qed.

Lemma is_prefix_split (p s : list ascii) :
  is_prefix p s = true -> s = p ++ skipn (length p) s.
Proof.
  revert s; induction p as [|a p IH]; intros [|b s] H; simpl in *;
    try reflexivity; try discriminate.
  apply andb_true_iff in H as [Hab Hp].
  apply Ascii.eqb_eq in Hab; subst b.
  f_equal. now apply IH.
Qed.

Lemma is_prefix_length (p s : list ascii) :
  is_prefix p s = true -> (length p <= length s)%nat.
Proof.
  revert s; induction p as [|a p IH]; intros [|b s] H; simpl in *;
    try lia; try discriminate.
  apply andb_true_iff in H as [_ Hp]. apply IH in Hp. lia.
Qed.

Lemma split_go_nonnil (sep s : list ascii) (skip : nat) (cur : list ascii) :
  split_go sep s skip cur <> [].
Proof.
  revert skip cur; induction s as [|c s IH]; intros skip cur; simpl.
  - discriminate.
  - destruct skip; [destruct (is_prefix sep (c :: s))|]; try discriminate;
      apply IH.
Qed.

Lemma join_l_cons (sep f : list ascii) (rest : list (list ascii)) :
  rest <> [] -> join_l sep (f :: rest) = f ++ sep ++ join_l sep rest.
Proof. destruct rest; [congruence | reflexivity]. Qed.

(** Joining the fields of the scan gives back what the scan read. *)
Lemma split_go_join (sep : list ascii) :
  sep <> [] ->
  forall (s : list ascii) (skip : nat) (cur : list ascii),
    (skip <= length s)%nat ->
    join_l sep (split_go sep s skip cur) = cur ++ skipn skip s.
Proof.
  intros Hsep s; induction s as [|c s IH]; intros skip cur Hlen.
  - simpl in Hlen. assert (skip = 0%nat) by lia; subst.
    simpl. now rewrite app_nil_r.
  - destruct skip as [|k].
    + cbn [split_go skipn].
      destruct (is_prefix sep (c :: s)) eqn:Hp.
      * rewrite join_l_cons by apply split_go_nonnil.
        pose proof (is_prefix_length _ _ Hp) as Hl.
        pose proof (is_prefix_split _ _ Hp) as Hs.
        destruct sep as [|a sep']; [congruence|].
        simpl in Hl. rewrite IH by (simpl; lia).
        replace (length (a :: sep') - 1)%nat with (length sep')
          by (simpl; lia).
        simpl in Hs. simpl. f_equal. symmetry. exact Hs.
      * rewrite IH by lia. simpl. now rewrite <- app_assoc.
    + simpl in Hlen. cbn [split_go skipn]. apply IH. lia.
Qed.

Lemma split_l_join (sep s : list ascii) :
  sep <> [] -> join_l sep (split_l sep s) = s.
Proof. intros H. unfold split_l. now rewrite split_go_join by (auto; lia). Qed.

Lemma list_ascii_nonempty (s : string) :
  s <> "" -> list_ascii_of_string s <> [].
Proof. destruct s; simpl; congruence. Qed.

End PyFacts.

(* ===================================================================== *)
(** * core/config.py: parsing and pairing                                 *)
(* ===================================================================== *)

Module ConfigFacts.

Import Py Config PyFacts.

(** The fields of a delimited string, in order. *)
Definition fields (config_value separator : string) : list string :=
  map string_of_list_ascii
    (split_l (list_ascii_of_string separator)
       (list_ascii_of_string config_value)).

(** A field is blank when nothing is left of it after [strip]. *)
Definition blank (field : string) : Prop := strip field = "".

Lemma split_fields (s sep : string) : sep <> "" -> split s sep = Ok (fields s sep).
Proof. destruct sep; [congruence | reflexivity]. Qed.

(** The fields joined by the separator are the string that was split. *)
Lemma join_fields (s sep : string) : sep <> "" -> join sep (fields s sep) = s.
Proof.
  intros Hsep. unfold join, fields. rewrite map_map.
  erewrite map_ext by (intros; apply list_ascii_of_string_of_list_ascii).
  rewrite map_id, split_l_join by now apply list_ascii_nonempty.
  apply string_of_list_ascii_of_string.
Qed.

Lemma all_empty_true (accounts : list string) :
  all_empty accounts = true <-> Forall (fun acc => acc = "") accounts.
Proof.
  induction accounts as [|acc accounts IH]; simpl.
  - split; [constructor | reflexivity].
  - rewrite andb_true_iff, negb_true_iff, truthy_false, IH, Forall_cons.
    reflexivity.
Qed.

Lemma fields_nonnil (s sep : string) : fields s sep <> [].
Proof.
  unfold fields, split_l. intros H. apply map_eq_nil in H.
  revert H. apply split_go_nonnil.
Qed.

Lemma fields_empty (sep : string) : fields "" sep = [""].
Proof. reflexivity. Qed.

(** What [parse_multi_account_config] returns, for every non-empty
    separator: nothing when every field is blank, and otherwise one
    stripped value per field. *)
Lemma parse_cases (s sep : string) :
  sep <> "" ->
  (Forall blank (fields s sep) -> parse_multi_account_config s sep = Ok [])
  /\ (Exists (fun f => ~ blank f) (fields s sep) ->
      parse_multi_account_config s sep = Ok (map strip (fields s sep))).
Proof.
  intros Hsep. unfold parse_multi_account_config.
  destruct (truthy s) eqn:Hs; simpl.
  - rewrite split_fields by assumption.
    destruct (all_empty (map strip (fields s sep))) eqn:He.
    + split; [reflexivity|]. intros Hex.
      apply all_empty_true in He. rewrite Forall_map in He.
      apply Exists_exists in Hex as (f & Hin & Hf).
      rewrite Forall_forall in He. now specialize (He f Hin).
    + split; [|reflexivity]. intros Hall.
      assert (all_empty (map strip (fields s sep)) = true) as E.
      { apply all_empty_true. now rewrite Forall_map. }
      congruence.
  - apply truthy_false in Hs; subst s. split; [reflexivity|].
    rewrite fields_empty. intros Hex. apply Exists_cons in Hex as [H|H].
    + now exfalso; apply H.
    + inversion H.
Qed.

(** C8. Multi-account parsing, for every non-empty separator: the empty
    string, and more generally a string all of whose fields are blank,
    parses to the empty list (channel disabled); a string with at least one
    non-blank field parses to the ordered list of its account values, one
    per field of the delimited string, a blank field staying in its
    position as the empty string; and parsing "a;;c" with the default
    separator yields ["a"; ""; "c"]. *)
Theorem parse_multi_account_config_spec (config_value separator : string) :
  separator <> "" ->
  parse_multi_account_config "" separator = Ok []
  /\ (Forall blank (fields config_value separator) ->
      parse_multi_account_config config_value separator = Ok [])
  /\ (Exists (fun f => ~ blank f) (fields config_value separator) ->
      exists accounts : list string,
        parse_multi_account_config config_value separator = Ok accounts
        /\ join separator (fields config_value separator) = config_value
        /\ length accounts = length (fields config_value separator)
        /\ (forall (i : nat) (f : string),
               fields config_value separator !! i = Some f ->
               accounts !! i = Some (strip f))
        /\ (forall (i : nat) (f : string),
               fields config_value separator !! i = Some f -> blank f ->
               accounts !! i = Some ""))
  /\ parse_multi_account_config "a;;c" default_separator = Ok ["a"; ""; "c"].
Proof.
  intros Hsep. destruct (parse_cases config_value separator Hsep) as [Hb Hn].
  split; [reflexivity|]. split; [exact Hb|]. split; [|reflexivity].
  intros Hex. exists (map strip (fields config_value separator)).
  split; [now apply Hn|]. split; [now apply join_fields|].
  split; [apply length_map|]. split.
  - intros i f Hi. change (map strip) with (fmap (M:=list) strip).
    now rewrite list_lookup_fmap, Hi.
  - intros i f Hi Hf. change (map strip) with (fmap (M:=list) strip).
    rewrite list_lookup_fmap, Hi. simpl. now rewrite Hf.
Qed.

Lemma parse_multi_account_config_spec_witness :
  parse_multi_account_config "" ";" = Ok []
  /\ (Forall blank (fields " a; ;c" ";") ->
      parse_multi_account_config " a; ;c" ";" = Ok [])
  /\ (Exists (fun f => ~ blank f) (fields " a; ;c" ";") ->
      exists accounts : list string,
        parse_multi_account_config " a; ;c" ";" = Ok accounts
        /\ join ";" (fields " a; ;c" ";") = " a; ;c"
        /\ length accounts = length (fields " a; ;c" ";")
        /\ (forall (i : nat) (f : string),
               fields " a; ;c" ";" !! i = Some f ->
               accounts !! i = Some (strip f))
        /\ (forall (i : nat) (f : string),
               fields " a; ;c" ";" !! i = Some f -> blank f ->
               accounts !! i = Some ""))
  /\ parse_multi_account_config "a;;c" default_separator = Ok ["a"; ""; "c"].
Proof.
  apply (parse_multi_account_config_spec " a; ;c" ";"). discriminate.
Defined.

Example parse_blank_fields : parse_multi_account_config " ; ;" ";" = Ok [].
Proof. reflexivity. Qed.

Example parse_leading_placeholder :
  parse_multi_account_config ";token2" ";" = Ok [""; "token2"].
Proof. reflexivity. Qed.

Example parse_empty_separator :
  parse_multi_account_config "a;b" "" = Raise ValueError.
Proof. reflexivity. Qed.

(** ** Pairing *)

Lemma non_empty_lookup (configs : gmap string (list string)) (k : string)
    (v : list string) :
  non_empty configs !! k = Some v <-> configs !! k = Some v /\ v <> [].
Proof. unfold non_empty. now rewrite map_lookup_filter_Some. Qed.

Lemma non_empty_lookup_None (configs : gmap string (list string)) (k : string) :
  non_empty configs !! k = None <->
  configs !! k = None \/ configs !! k = Some [].
Proof.
  unfold non_empty. rewrite map_lookup_filter_None. split.
  - intros [H|H]; [now left|].
    destruct (configs !! k) as [v|] eqn:E; [|now left].
    right. f_equal. destruct v as [|x v]; [reflexivity|].
    exfalso. now apply (H (x :: v)).
  - intros [H|H]; [now left|]. right. intros v Hv. simpl.
    rewrite H in Hv. injection Hv as <-. tauto.
Qed.

Lemma required_absent_true (configs : gmap string (list string)) (k : string) :
  required_absent (non_empty configs) k = true <->
  configs !! k = None \/ configs !! k = Some [].
Proof.
  unfold required_absent.
  destruct (non_empty configs !! k) as [v|] eqn:E.
  - apply non_empty_lookup in E as [E Hv]. rewrite bool_decide_eq_true.
    split; [congruence|]. intros [H|H]; congruence.
  - split; [intros _; now apply non_empty_lookup_None | reflexivity].
Qed.

Lemma elem_of_unique_lengths (ne : gmap string (list string)) (n : nat) :
  n ∈ unique_lengths ne <-> exists k v, ne !! k = Some v /\ length v = n.
Proof.
  unfold unique_lengths. rewrite elem_of_list_to_set.
  change (map ?f ?l) with (fmap (M:=list) f l). rewrite list_elem_of_fmap.
  split.
  - intros ([k v] & -> & Hin). apply elem_of_map_to_list in Hin. eauto.
  - intros (k & v & Hkv & <-). exists (k, v). split; [reflexivity|].
    now apply elem_of_map_to_list.
Qed.

Lemma two_elements_size (X : gset nat) (a b : nat) :
  a ∈ X -> b ∈ X -> a <> b -> 1 < size X.
Proof.
  intros Ha Hb Hab.
  assert ({[a]} ∪ {[b]} ⊆ X) as Hsub.
  { intros x. rewrite elem_of_union, !elem_of_singleton.
    intros [->| ->]; assumption. }
  apply subseteq_size in Hsub.
  rewrite size_union, !size_singleton in Hsub; [lia|].
  intros x. rewrite !elem_of_singleton. congruence.
Qed.

(** No required key is missing or empty. *)
Definition required_present (configs : gmap string (list string))
    (required_keys : option (list string)) : Prop :=
  forall k, k ∈ default [] required_keys ->
    exists v, configs !! k = Some v /\ v <> [].

Lemma required_present_existsb (configs : gmap string (list string))
    (required_keys : option (list string)) :
  required_present configs required_keys ->
  existsb (required_absent (non_empty configs)) (default [] required_keys)
  = false.
Proof.
  intros Hreq. apply not_true_is_false. intros Hex.
  apply existsb_exists in Hex. destruct Hex as (k & Hin & Hk).
  apply list_elem_of_In in Hin. apply required_absent_true in Hk.
  destruct (Hreq k Hin) as (v & Hv & Hne). destruct Hk; congruence.
Qed.

(** C7. Paired-config validation, for every configs mapping: if a required
    key's account list is empty (or the key is absent), the answer is
    (True, 0); otherwise, if the non-empty account lists have two or more
    distinct lengths, it is (False, 0); otherwise it is (True, n) with n the
    common length of the non-empty lists, and 0 when all lists are empty. *)
Theorem validate_paired_configs_spec
    (configs : gmap string (list string)) (channel_name : string)
    (required_keys : option (list string)) :
  ((exists k, k ∈ default [] required_keys
              /\ (configs !! k = None \/ configs !! k = Some [])) ->
   validate_paired_configs configs channel_name required_keys = (true, 0))
  /\ (required_present configs required_keys ->
      (exists k1 v1 k2 v2,
          configs !! k1 = Some v1 /\ configs !! k2 = Some v2
          /\ v1 <> [] /\ v2 <> [] /\ length v1 <> length v2) ->
      validate_paired_configs configs channel_name required_keys = (false, 0))
  /\ (required_present configs required_keys ->
      (forall k1 v1 k2 v2,
          configs !! k1 = Some v1 -> configs !! k2 = Some v2 ->
          v1 <> [] -> v2 <> [] -> length v1 = length v2) ->
      exists n : nat,
        validate_paired_configs configs channel_name required_keys = (true, n)
        /\ (forall k v, configs !! k = Some v -> v <> [] -> length v = n)
        /\ ((forall k v, configs !! k = Some v -> v = []) -> n = 0)).
Proof.
  unfold validate_paired_configs. split; [|split].
  - intros (k & Hin & Hk). case_bool_decide; [reflexivity|].
    replace (existsb _ _) with true; [reflexivity|].
    symmetry. apply existsb_exists. exists k.
    split; [now apply list_elem_of_In | now apply required_absent_true].
  - intros Hreq (k1 & v1 & k2 & v2 & H1 & H2 & Hv1 & Hv2 & Hlen).
    assert (non_empty configs !! k1 = Some v1) as E1
      by now apply non_empty_lookup.
    assert (non_empty configs !! k2 = Some v2) as E2
      by now apply non_empty_lookup.
    case_bool_decide as Hemp.
    { rewrite Hemp, lookup_empty in E1. discriminate. }
    rewrite required_present_existsb by assumption.
    rewrite bool_decide_eq_true_2; [reflexivity|].
    apply (two_elements_size _ (length v1) (length v2)); [| |assumption];
      apply elem_of_unique_lengths; eauto.
  - intros Hreq Hsame. case_bool_decide as Hemp.
    { exists 0. split; [reflexivity|]. split; [|reflexivity].
      intros k v Hk Hv.
      assert (non_empty configs !! k = Some v) as E
        by now apply non_empty_lookup.
      rewrite Hemp, lookup_empty in E. discriminate. }
    rewrite required_present_existsb by assumption.
    apply map_choose in Hemp as (k0 & v0 & E0).
    pose proof E0 as E0'. apply non_empty_lookup in E0' as [H0 Hv0].
    assert (unique_lengths (non_empty configs) = {[ length v0 ]}) as Hul.
    { apply set_eq. intros n. rewrite elem_of_unique_lengths, elem_of_singleton.
      split.
      - intros (k & v & E & <-). apply non_empty_lookup in E as [Hk Hv].
        now apply (Hsame k v k0 v0).
      - intros ->. eauto. }
    rewrite Hul, size_singleton.
    rewrite bool_decide_eq_false_2 by lia.
    rewrite elements_singleton. simpl.
    exists (length v0). split; [reflexivity|]. split.
    + intros k v Hk Hv. now apply (Hsame k v k0 v0).
    + intros Hall. specialize (Hall k0 v0 H0). contradiction.
Qed.

Definition telegram_mismatch : gmap string (list string) :=
  <["token" := ["t1"; "t2"]]> (<["chat" := ["c1"]]> ∅).

Definition telegram_paired : gmap string (list string) :=
  <["token" := ["t1"; "t2"]]> (<["chat" := ["c1"; "c2"]]> ∅).

Definition telegram_no_chat : gmap string (list string) :=
  <["token" := ["t1"; "t2"]]> (<["chat" := []]> ∅).

Lemma telegram_required (chat : list string) :
  chat <> [] ->
  required_present (<["token" := ["t1"; "t2"]]> (<["chat" := chat]> ∅))
    (Some ["token"; "chat"]).
Proof.
  intros Hc k Hk. simpl in Hk.
  apply elem_of_cons in Hk as [->|Hk];
    [|apply elem_of_cons in Hk as [->|Hk]; [|inversion Hk]].
  - exists ["t1"; "t2"]. split; [reflexivity | discriminate].
  - exists chat. split; [reflexivity | assumption].
Defined.

Lemma validate_paired_configs_spec_witness :
  validate_paired_configs telegram_no_chat "Telegram" (Some ["token"; "chat"])
  = (true, 0)
  /\ validate_paired_configs telegram_mismatch "Telegram"
       (Some ["token"; "chat"]) = (false, 0)
  /\ exists n : nat,
       validate_paired_configs telegram_paired "Telegram"
         (Some ["token"; "chat"]) = (true, n)
       /\ (forall k v, telegram_paired !! k = Some v -> v <> [] -> length v = n)
       /\ ((forall k v, telegram_paired !! k = Some v -> v = []) -> n = 0).
Proof.
  split; [|split].
  - apply (validate_paired_configs_spec telegram_no_chat).
    exists "chat". split; [|right; reflexivity].
    simpl. apply elem_of_cons. right. apply elem_of_cons. now left.
  - apply (validate_paired_configs_spec telegram_mismatch).
    + apply telegram_required. discriminate.
    + exists "token", ["t1"; "t2"], "chat", ["c1"].
      repeat split; try reflexivity; simpl; discriminate.
  - apply (validate_paired_configs_spec telegram_paired).
    + apply telegram_required. discriminate.
    + intros k1 v1 k2 v2 H1 H2 _ _. unfold telegram_paired in *.
      apply lookup_insert_Some in H1 as [[_ <-]|[_ H1]];
        [|apply lookup_insert_Some in H1 as [[_ <-]|[_ H1]];
          [|rewrite lookup_empty in H1; discriminate]];
        (apply lookup_insert_Some in H2 as [[_ <-]|[_ H2]];
          [|apply lookup_insert_Some in H2 as [[_ <-]|[_ H2]];
            [|rewrite lookup_empty in H2; discriminate]]);
        reflexivity.
Defined.

Example validate_paired_mismatch :
  validate_paired_configs telegram_mismatch "Telegram" (Some ["token"; "chat"])
  = (false, 0).
Proof. vm_compute. reflexivity. Qed.

Example validate_paired_match :
  validate_paired_configs telegram_paired "Telegram" (Some ["token"; "chat"])
  = (true, 2).
Proof. vm_compute. reflexivity. Qed.

End ConfigFacts.

(* ===================================================================== *)
(** * storage/manager.py: backend resolution, fallback, retention         *)
(* ===================================================================== *)

Module StorageFacts.

Import Py Storage PyFacts.

(** ** Backend type resolution *)

(** A credential is present when it holds a non-empty value. *)
Definition present (o : option string) : Prop :=
  exists v : string, o = Some v /\ v <> "".

(** A credential in the words of the specification: the remote config
    value if it is set, and otherwise the environment variable. *)
Definition credential_by_precedence (m : StorageManager) (p : Process)
    (cfg_key env_key : string) : option string :=
  match remote_config m !! cfg_key with
  | Some (String a v) => Some (String a v)
  | Some EmptyString | None => environ p !! env_key
  end.

Definition all_credentials_present (m : StorageManager) (p : Process) : Prop :=
  present (credential_by_precedence m p "bucket_name" "S3_BUCKET_NAME")
  /\ present (credential_by_precedence m p "access_key_id" "S3_ACCESS_KEY_ID")
  /\ present (credential_by_precedence m p
                "secret_access_key" "S3_SECRET_ACCESS_KEY")
  /\ present (credential_by_precedence m p "endpoint_url" "S3_ENDPOINT_URL").

Definition runs_in_ci (p : Process) : Prop :=
  environ p !! "GITHUB_ACTIONS" = Some "true".

Lemma credential_precedence (m : StorageManager) (p : Process)
    (cfg_key env_key : string) :
  credential m p cfg_key env_key
  = credential_by_precedence m p cfg_key env_key.
Proof.
  unfold credential, credential_by_precedence, or_.
  destruct (remote_config m !! cfg_key) as [[|a v]|]; reflexivity.
Qed.

Lemma truthy_opt_present (o : option string) :
  truthy_opt o = true <-> present o.
Proof.
  unfold present. destruct o as [s|]; simpl.
  - rewrite truthy_true. split.
    + intros H. now exists s.
    + intros (v & [= <-] & H). exact H.
  - split; [discriminate|]. intros (v & H & _). discriminate.
Qed.

Lemma truthy_opt_and (a b : option string) :
  truthy_opt (and_ a b) = truthy_opt a && truthy_opt b.
Proof. unfold and_. destruct (truthy_opt a) eqn:E; simpl; auto. Qed.

Lemma has_remote_config_present (m : StorageManager) (p : Process) :
  _has_remote_config m p = true <-> all_credentials_present m p.
Proof.
  unfold _has_remote_config, all_credentials_present.
  rewrite !truthy_opt_and, !andb_true_iff, !truthy_opt_present,
    !credential_precedence.
  tauto.
Qed.

Lemma is_github_actions_ci (p : Process) :
  is_github_actions p = true <-> runs_in_ci p.
Proof. unfold is_github_actions. apply bool_decide_eq_true. Qed.

(** C4. With the configured type "auto", the resolved type is "remote" if
    and only if the process runs in GitHub Actions and the four remote
    credentials (bucket name, access key, secret key, endpoint) are all
    present, each read from the remote config when set there and from its
    environment variable otherwise; in every other case it is "local".  A
    configured "local" or "remote" is returned unchanged. *)
Theorem resolve_backend_type_spec (m : StorageManager) (p : Process) :
  (backend_type m = "auto" ->
   (_resolve_backend_type m p = "remote"
    <-> runs_in_ci p /\ all_credentials_present m p)
   /\ (~ (runs_in_ci p /\ all_credentials_present m p) ->
       _resolve_backend_type m p = "local"))
  /\ (backend_type m = "local" -> _resolve_backend_type m p = "local")
  /\ (backend_type m = "remote" -> _resolve_backend_type m p = "remote").
Proof.
  unfold _resolve_backend_type. split; [|split].
  - intros ->. simpl.
    rewrite <- is_github_actions_ci, <- has_remote_config_present.
    destruct (is_github_actions p), (_has_remote_config m p);
      (split; [split|]); try discriminate; try tauto;
      intros [? ?]; discriminate.
  - intros ->. reflexivity.
  - intros ->. reflexivity.
Qed.

Definition manager (backend_type : string) (remote_config : gmap string string)
    (local_retention_days remote_retention_days : Z) : StorageManager :=
  {| backend_type := backend_type; data_dir := "output";
     enable_txt := true; enable_html := true;
     remote_config := remote_config;
     local_retention_days := local_retention_days;
     remote_retention_days := remote_retention_days;
     pull_enabled := false; pull_days := 0;
     timezone := "America/New_York";
     _backend := None; _remote_backend := None |}.

(** A CI process: three credentials come from the environment. *)
Definition ci_process (remote_failure : StorageBackend -> option exn)
  : Process :=
  {| environ :=
       <["GITHUB_ACTIONS" := "true"]>
         (<["S3_ACCESS_KEY_ID" := "key"]>
            (<["S3_SECRET_ACCESS_KEY" := "secret"]>
               (<["S3_ENDPOINT_URL" := "https://s3.example"]>
                  (<["S3_BUCKET_NAME" := "env-bucket"]> ∅))));
     remote_failure := remote_failure |}.

Definition bucket_in_config : gmap string string :=
  <["bucket_name" := "cfg-bucket"]> ∅.

Lemma resolve_backend_type_spec_witness :
  _resolve_backend_type (manager "auto" bucket_in_config 0 0)
    (ci_process (fun _ => None)) = "remote"
  /\ credential (manager "auto" bucket_in_config 0 0)
       (ci_process (fun _ => None)) "bucket_name" "S3_BUCKET_NAME"
     = Some "cfg-bucket"
  /\ _resolve_backend_type (manager "local" bucket_in_config 0 0)
       (ci_process (fun _ => None)) = "local"
  /\ _resolve_backend_type (manager "remote" ∅ 0 0)
       {| environ := ∅; remote_failure := fun _ => None |} = "remote".
Proof.
  split; [|split; [reflexivity|split]].
  - destruct (resolve_backend_type_spec (manager "auto" bucket_in_config 0 0)
                (ci_process (fun _ => None))) as [Hauto _].
    destruct (Hauto eq_refl) as [[_ Hremote] _].
    apply Hremote. split; [reflexivity|].
    repeat split; eexists; (split; [reflexivity | discriminate]).
  - apply (resolve_backend_type_spec (manager "local" bucket_in_config 0 0)
             (ci_process (fun _ => None))). reflexivity.
  - apply (resolve_backend_type_spec (manager "remote" ∅ 0 0)
             {| environ := ∅; remote_failure := fun _ => None |}).
    reflexivity.
Defined.

Example resolve_auto_outside_ci :
  _resolve_backend_type (manager "auto" bucket_in_config 0 0)
    {| environ := ∅; remote_failure := fun _ => None |} = "local".
Proof. reflexivity. Qed.

(** ** Fallback to the Local backend *)

Lemma create_remote_backend_failure (m : StorageManager) (p : Process)
    (e : exn) :
  construct_remote m p = Raise e -> _create_remote_backend m p = None.
Proof.
  unfold _create_remote_backend. intros ->. destruct e; reflexivity.
Qed.

Lemma create_remote_backend_is_remote (m : StorageManager) (p : Process)
    (b : StorageBackend) :
  _create_remote_backend m p = Some b -> is_remote b = true.
Proof.
  unfold _create_remote_backend, construct_remote.
  destruct (remote_failure p (remote_backend_of m p)) as [[]|];
    try discriminate.
  intros [= <-]. reflexivity.
Qed.

(** The backend [get_backend] returns is the one it leaves memoized. *)
Lemma get_backend_memoized (m : StorageManager) (p : Process) :
  _backend (get_backend m p).2 = Some (get_backend m p).1.
Proof.
  unfold get_backend. destruct (_backend m) eqn:E; [exact E|].
  destruct (String.eqb (_resolve_backend_type m p) "remote") eqn:Er.
  - destruct (_create_remote_backend m p); simpl; [|reflexivity].
    destruct (String.eqb _ "local"); reflexivity.
  - simpl. reflexivity.
Qed.

(** C5. [get_backend] returns a backend in every manager state and for
    every outcome of the remote construction, and that backend is the one
    left memoized; when no backend is memoized, the resolved type is remote
    and the remote construction raises (an [ImportError] or any other
    exception), the backend returned is the Local one built from the
    manager's own settings: the exception does not leave [get_backend]. *)
Theorem get_backend_fallback (m : StorageManager) (p : Process) :
  _backend (get_backend m p).2 = Some (get_backend m p).1
  /\ (forall e : exn,
         _backend m = None ->
         _resolve_backend_type m p = "remote" ->
         construct_remote m p = Raise e ->
         (get_backend m p).1 = local_backend_of m
         /\ is_remote (get_backend m p).1 = false).
Proof.
  split; [apply get_backend_memoized|].
  intros e Hnone Hres Hfail. unfold get_backend.
  rewrite Hnone, Hres, (create_remote_backend_failure m p e Hfail).
  simpl. split; reflexivity.
Qed.

Definition remote_manager : StorageManager := manager "remote" ∅ 0 0.

Lemma get_backend_fallback_witness :
  (get_backend remote_manager (ci_process (fun _ => Some ImportError))).1
  = LocalStorageBackend "output" true true "America/New_York"
  /\ (get_backend remote_manager (ci_process (fun _ => Some OtherException))).1
     = LocalStorageBackend "output" true true "America/New_York".
Proof.
  split.
  - apply (get_backend_fallback remote_manager
             (ci_process (fun _ => Some ImportError))) with (e := ImportError);
      reflexivity.
  - apply (get_backend_fallback remote_manager
             (ci_process (fun _ => Some OtherException)))
      with (e := OtherException);
      reflexivity.
Defined.

Example get_backend_remote_ok :
  is_remote (get_backend remote_manager (ci_process (fun _ => None))).1 = true.
Proof. reflexivity. Qed.

(** ** Retention cleanup *)

(** [get_backend] changes nothing of the manager but [_backend]. *)
Lemma get_backend_retention (m : StorageManager) (p : Process) :
  local_retention_days (get_backend m p).2 = local_retention_days m
  /\ remote_retention_days (get_backend m p).2 = remote_retention_days m
  /\ _remote_backend (get_backend m p).2 = _remote_backend m
  /\ remote_config (get_backend m p).2 = remote_config m
  /\ remote_backend_of (get_backend m p).2 p = remote_backend_of m p.
Proof.
  unfold get_backend. destruct (_backend m); [tauto|].
  destruct (String.eqb (_resolve_backend_type m p) "remote").
  - destruct (_create_remote_backend m p); simpl; [|tauto].
    destruct (String.eqb _ "local"); simpl; tauto.
  - simpl. tauto.
Qed.

Lemma sweep_nonpositive (today retention_days : Z) (days : list Z) :
  (retention_days <= 0)%Z -> sweep today retention_days days = (0%Z, days).
Proof.
  intros Hle. unfold sweep, expired.
  replace (0 <? retention_days)%Z with false by (symmetry; apply Z.ltb_ge; lia).
  simpl. induction days as [|d days IH]; [reflexivity|].
  rewrite filter_cons_False by discriminate.
  rewrite (filter_cons_True (fun _ => false = false)) by reflexivity.
  injection IH as IH1 IH2. rewrite IH1. f_equal. f_equal. exact IH2.
Qed.

(** A manager whose active backend is the Remote one, with 7 days of local
    retention and no remote retention. *)
Definition remote_active : StorageManager :=
  manager "remote" bucket_in_config 7 0.

(** Both stores hold one bucket, 30 days old on day 100. *)
Definition month_old : Buckets :=
  {| local_buckets := [70%Z]; remote_buckets := [70%Z] |}.

(** C2, at a manager whose active backend is Remote: with local retention
    7 and remote retention 0, [cleanup_old_data] reports one deletion, and
    the bucket it deleted is the remote one, while the local bucket of the
    same age stays: the local retention was applied to whichever backend
    [get_backend] returns. *)
Theorem cleanup_old_data_remote_active :
  let '(total, _, after) :=
    cleanup_old_data 100 remote_active (ci_process (fun _ => None)) month_old in
  total = 1%Z
  /\ remote_retention_days remote_active = 0%Z
  /\ remote_buckets after = []
  /\ local_buckets after = [70%Z].
Proof. vm_compute. repeat split. Qed.

(** When the active backend is the Local one and the Remote backend can be
    built, the two retentions are applied side by side and the counts are
    added. *)
Lemma cleanup_old_data_local_active (today : Z) (m : StorageManager)
    (p : Process) (s : Buckets) :
  is_remote (get_backend m p).1 = false ->
  _remote_backend m = None ->
  _has_remote_config m p = true ->
  remote_failure p (remote_backend_of m p) = None ->
  let '(total, _, after) := cleanup_old_data today m p s in
  total = ((sweep today (local_retention_days m) (local_buckets s)).1
           + (sweep today (remote_retention_days m) (remote_buckets s)).1)%Z
  /\ local_buckets after
     = (sweep today (local_retention_days m) (local_buckets s)).2
  /\ remote_buckets after
     = (sweep today (remote_retention_days m) (remote_buckets s)).2.
Proof.
  intros Hlocal Hrb Hcfg Hok'. unfold cleanup_old_data.
  destruct (get_backend_retention m p) as (Hl & Hr & Hb & Hc & Hrbo).
  assert (remote_failure p (remote_backend_of (get_backend m p).2 p) = None)
    as Hok by now rewrite Hrbo.
  assert (_has_remote_config (get_backend m p).2 p = true) as Hcfg'.
  { unfold _has_remote_config, credential in *. now rewrite Hc. }
  pose proof (sweep_nonpositive today) as Hnon.
  destruct (0 <? local_retention_days m)%Z eqn:El.
  - destruct (get_backend m p) as [b m'] eqn:Eg. cbn [fst snd] in *.
    unfold backend_cleanup_old_data at 1. rewrite Hlocal, Hl.
    destruct (sweep today (local_retention_days m) (local_buckets s))
      as [n kept] eqn:Es.
    rewrite Hr, Hcfg'.
    destruct (0 <? remote_retention_days m)%Z eqn:Er; cbn [andb].
    + rewrite Hb, Hrb. unfold _create_remote_backend, construct_remote.
      rewrite Hok. cbn [_remote_backend set_remote_backend].
      unfold backend_cleanup_old_data. cbn [is_remote remote_backend_of].
      change (remote_retention_days (set_remote_backend m' _))
        with (remote_retention_days m').
      cbn [remote_buckets local_buckets]. rewrite Hr.
      destruct (sweep today (remote_retention_days m) (remote_buckets s))
        as [n' kept'] eqn:Es'. simpl. auto.
    + apply Z.ltb_ge in Er. rewrite (Hnon _ _ Er).
      simpl. repeat split; lia.
  - apply Z.ltb_ge in El. rewrite (Hnon _ _ El). rewrite Hcfg.
    destruct (0 <? remote_retention_days m)%Z eqn:Er; cbn [andb].
    + rewrite Hrb. unfold _create_remote_backend, construct_remote.
      rewrite Hok'. cbn [_remote_backend set_remote_backend].
      unfold backend_cleanup_old_data. cbn [is_remote remote_backend_of].
      change (remote_retention_days (set_remote_backend m _))
        with (remote_retention_days m).
      cbn [remote_buckets local_buckets].
      destruct (sweep today (remote_retention_days m) (remote_buckets s))
        as [n' kept'] eqn:Es'. simpl. auto.
    + apply Z.ltb_ge in Er. rewrite (Hnon _ _ Er).
      simpl. auto.
Qed.

(** When the active backend is the Remote one, the local retention is
    spent on the remote store and the local store is left alone. *)
Lemma cleanup_old_data_active_remote (today : Z) (m : StorageManager)
    (p : Process) (s : Buckets) :
  is_remote (get_backend m p).1 = true ->
  (0 < local_retention_days m)%Z ->
  (remote_retention_days m <= 0)%Z ->
  let '(total, _, after) := cleanup_old_data today m p s in
  total = (sweep today (local_retention_days m) (remote_buckets s)).1
  /\ remote_buckets after
     = (sweep today (local_retention_days m) (remote_buckets s)).2
  /\ local_buckets after = local_buckets s.
Proof.
  intros Hremote Hl Hr. unfold cleanup_old_data.
  destruct (get_backend_retention m p) as (Hl' & Hr' & _).
  apply Z.ltb_lt in Hl. rewrite Hl.
  destruct (get_backend m p) as [b m'] eqn:Eg. cbn [fst snd] in *.
  unfold backend_cleanup_old_data. rewrite Hremote, Hl'.
  destruct (sweep today (local_retention_days m) (remote_buckets s))
    as [n kept] eqn:Es.
  rewrite Hr'. apply Z.ltb_ge in Hr. rewrite Hr. simpl.
  repeat split; lia.
Qed.

Example cleanup_old_data_both_sides :
  let '(total, _, after) :=
    cleanup_old_data 100 (manager "local" bucket_in_config 7 60)
      (ci_process (fun _ => None))
      {| local_buckets := [70; 95]%Z; remote_buckets := [30; 70]%Z |} in
  total = 2%Z /\ local_buckets after = [95%Z]
  /\ remote_buckets after = [70%Z].
Proof. vm_compute. repeat split. Qed.

End StorageFacts.

(* ===================================================================== *)
(** * __main__.py: content gate, mode strategy, push window, run          *)
(* ===================================================================== *)

Module MainFacts.

Import Py Main PyFacts.

(** ** The content gate *)

(** At least one platform has a non-empty list of new titles. *)
Definition new_title_exists (new_titles : option (gmap string (list string)))
  : Prop :=
  exists (d : gmap string (list string)) (platform : string)
         (titles : list string),
    new_titles = Some d /\ d !! platform = Some titles /\ titles <> [].

(** At least one keyword-group Stat has a positive count. *)
Definition match_exists (stats : list Stat) : Prop :=
  exists stat : Stat, stat ∈ stats /\ (0 < count stat)%Z.

Lemma any_titles_true (d : gmap string (list string)) :
  any_titles d = true <->
  exists platform titles, d !! platform = Some titles /\ titles <> [].
Proof.
  unfold any_titles. rewrite existsb_exists. split.
  - intros ([k v] & Hin & Hlen). apply list_elem_of_In in Hin.
    apply elem_of_map_to_list in Hin. exists k, v. split; [assumption|].
    simpl in Hlen. destruct v; [discriminate | congruence].
  - intros (k & v & Hk & Hv). exists (k, v). split.
    + apply list_elem_of_In. now apply elem_of_map_to_list.
    + simpl. destruct v; [congruence | reflexivity].
Qed.

Lemma has_new_true (new_titles : option (gmap string (list string))) :
  has_new new_titles = true <-> new_title_exists new_titles.
Proof.
  unfold has_new, new_title_exists. destruct new_titles as [d|].
  - rewrite andb_true_iff, negb_true_iff, bool_decide_eq_false, any_titles_true.
    split.
    + intros (_ & k & v & Hk & Hv). exists d, k, v. auto.
    + intros (d' & k & v & [= <-] & Hk & Hv). split; [|eauto].
      intros ->. rewrite lookup_empty in Hk. discriminate.
  - split; [discriminate|]. intros (d & k & v & H & _). discriminate.
Qed.

Lemma has_matched_true (stats : list Stat) :
  has_matched stats = true <-> match_exists stats.
Proof.
  unfold has_matched, match_exists. rewrite existsb_exists.
  split; intros (stat & Hin & Hc); exists stat.
  - split; [now apply list_elem_of_In | now apply Z.ltb_lt].
  - split; [now apply list_elem_of_In | now apply Z.ltb_lt].
Qed.

(** C1. The content gate follows the mode table: in incremental mode it
    passes if and only if some platform has a non-empty new-title list and
    some Stat has a positive count; in current mode if and only if some Stat
    has a positive count; in daily mode if and only if some Stat has a
    positive count or some platform has a non-empty new-title list.  So in
    incremental mode, without any new title the gate is false whatever the
    stats are. *)
Theorem has_valid_content_spec (stats : list Stat)
    (new_titles : option (gmap string (list string))) :
  (_has_valid_content "incremental" stats new_titles = true
   <-> new_title_exists new_titles /\ match_exists stats)
  /\ (_has_valid_content "current" stats new_titles = true
      <-> match_exists stats)
  /\ (_has_valid_content "daily" stats new_titles = true
      <-> match_exists stats \/ new_title_exists new_titles)
  /\ (~ new_title_exists new_titles ->
      _has_valid_content "incremental" stats new_titles = false).
Proof.
  unfold _has_valid_content. simpl.
  rewrite andb_true_iff, orb_true_iff, has_new_true, has_matched_true.
  repeat split; try tauto.
  intros Hno. apply andb_false_iff. left.
  apply not_true_is_false. now rewrite has_new_true.
Qed.

Definition matched_stat : Stat := {| word := "X"; count := 1 |}.

Definition stale_titles : gmap string (list string) := <["P1" := []]> ∅.

Definition fresh_titles : gmap string (list string) := <["P1" := ["X"]]> ∅.

Lemma has_valid_content_spec_witness :
  _has_valid_content "incremental" [matched_stat] (Some stale_titles) = false.
Proof.
  apply (has_valid_content_spec [matched_stat] (Some stale_titles)).
  intros (d & platform & titles & Hd & Hp & Ht).
  injection Hd as <-. unfold stale_titles in Hp.
  apply lookup_insert_Some in Hp as [[_ <-]|[_ Hp]]; [congruence|].
  rewrite lookup_empty in Hp. discriminate.
Defined.

Example gate_incremental_fresh :
  _has_valid_content "incremental" [matched_stat] (Some fresh_titles) = true.
Proof. vm_compute. reflexivity. Qed.

Example gate_daily_unmatched :
  _has_valid_content "daily" [] (Some fresh_titles) = true.
Proof. vm_compute. reflexivity. Qed.

(** ** The mode strategy *)

Lemma get_mode_strategy_incremental :
  _get_mode_strategy "incremental" = incremental_strategy.
Proof. reflexivity. Qed.

Lemma get_mode_strategy_current :
  _get_mode_strategy "current" = current_strategy.
Proof. reflexivity. Qed.

Lemma get_mode_strategy_daily : _get_mode_strategy "daily" = daily_strategy.
Proof. reflexivity. Qed.

Lemma get_mode_strategy_other (report_mode : string) :
  report_mode <> "incremental" -> report_mode <> "current" ->
  report_mode <> "daily" ->
  _get_mode_strategy report_mode = daily_strategy.
Proof.
  intros Hi Hc Hd. unfold _get_mode_strategy, dict_get, MODE_STRATEGIES.
  rewrite !lookup_insert_ne, lookup_empty by congruence.
  reflexivity.
Qed.

(** ** The push window gate *)

(** C6. With the push window enabled in once-per-day mode and a push on
    record for the current day, [_send_notification_if_needed] answers
    False and leaves the state as it was (nothing is dispatched, nothing is
    recorded): at every time of day, inside or outside the window, and for
    every report content, passing the content gate or not. *)
Theorem send_notification_once_per_day (c : Context) (stats : list Stat)
    (report_type mode : string)
    (new_titles : option (gmap string (list string))) (st : State) :
  PUSH_WINDOW_ENABLED (config c) = true ->
  PUSH_WINDOW_ONCE_PER_DAY (config c) = true ->
  push_records st <> [] ->
  _send_notification_if_needed c stats report_type mode new_titles st
  = (Ok false, st).
Proof.
  intros Hen Honce Hrec. unfold _send_notification_if_needed.
  rewrite Hen, Honce.
  destruct (ENABLE_NOTIFICATION (config c)
            && _has_notification_configured (config c)
            && _has_valid_content (REPORT_MODE (config c)) stats new_titles);
    [|reflexivity].
  destruct (is_in_time_range c _ _); simpl; [|reflexivity].
  unfold bind, has_pushed_today.
  destruct (push_records st); [congruence | reflexivity].
Qed.

(** A configuration with one webhook channel and a push window from 09:00
    to 18:00. *)
Definition sample_config (report_mode : string) (push_window once : bool)
  : Config :=
  {| REPORT_MODE := report_mode;
     ENABLE_NOTIFICATION := true;
     FEISHU_WEBHOOK_URL := "https://hook.example/1";
     DINGTALK_WEBHOOK_URL := ""; WEWORK_WEBHOOK_URL := "";
     TELEGRAM_BOT_TOKEN := ""; TELEGRAM_CHAT_ID := "";
     EMAIL_FROM := ""; EMAIL_PASSWORD := ""; EMAIL_TO := "";
     NTFY_SERVER_URL := ""; NTFY_TOPIC := "";
     BARK_URL := ""; SLACK_WEBHOOK_URL := "";
     PUSH_WINDOW_ENABLED := push_window;
     PUSH_WINDOW_START := 540; PUSH_WINDOW_END := 1080;
     PUSH_WINDOW_ONCE_PER_DAY := once;
     STORAGE_FORMATS_HTML := true;
     STORAGE_FORMATS_TXT := false |}.

(** A run at minute [now] in which platform P1 lists title X, keyword
    group X matches it once, the day's data reads back as [today], and the
    one channel accepts what it is sent. *)
Definition sample_context (cfg : Config) (now : Z)
    (today : result (gmap string (list string)))
    (new_titles : gmap string (list string)) : Context :=
  {| config := cfg;
     now := now;
     crawl_websites := (<["P1" := ["X"]]> ∅, []);
     save_news_data := true;
     read_today_titles := today;
     detect_new_titles := new_titles;
     load_frequency_words := None;
     count_frequency := fun _ _ _ => [matched_stat];
     generate_html := fun _ _ _ => Some "output/index.html";
     dispatch_all := fun _ _ _ => <["feishu" := true]> ∅ |}.

Definition day_of_P1 : result (gmap string (list string)) :=
  Ok (<["P1" := ["X"]]> ∅).

Definition pushed_already : State :=
  {| push_records := ["Real-time Incremental"]; trace := [] |}.

Lemma send_notification_once_per_day_witness :
  _has_valid_content "incremental" [matched_stat] (Some fresh_titles) = true
  /\ is_in_time_range
       (sample_context (sample_config "incremental" true true) 600
          day_of_P1 fresh_titles) 540 1080 = true
  /\ _send_notification_if_needed
       (sample_context (sample_config "incremental" true true) 600
          day_of_P1 fresh_titles)
       [matched_stat] "Real-time Incremental" "incremental"
       (Some fresh_titles) pushed_already
     = (Ok false, pushed_already).
Proof.
  split; [vm_compute; reflexivity|]. split; [reflexivity|].
  apply (send_notification_once_per_day
           (sample_context (sample_config "incremental" true true) 600
              day_of_P1 fresh_titles));
    [reflexivity | reflexivity | discriminate].
Defined.

Example send_notification_first_push :
  _send_notification_if_needed
    (sample_context (sample_config "incremental" true true) 600
       day_of_P1 fresh_titles)
    [matched_stat] "Real-time Incremental" "incremental"
    (Some fresh_titles) (initial_state [])
  = (Ok true,
     {| push_records := ["Real-time Incremental"];
        trace := [EvDispatch "Real-time Incremental" "incremental";
                  EvRecordPush "Real-time Incremental"] |}).
Proof. vm_compute. reflexivity. Qed.

(** ** Traces of a run *)

Definition is_dispatch (report_type : string) (ev : Event) : bool :=
  match ev with
  | EvDispatch rt _ => String.eqb rt report_type
  | _ => false
  end.

(** How many times a notification of the given report type went to the
    dispatcher. *)
Definition dispatches (report_type : string) (tr : list Event) : nat :=
  length (List.filter (is_dispatch report_type) tr).

(** The summary stage ran as [_generate_summary_html]: artifact only. *)
Definition html_only_summary (tr : list Event) : bool :=
  existsb (fun ev => match ev with EvSummaryHtml _ => true | _ => false end) tr.

(** The summary stage ran as [_generate_summary_report]: with notification. *)
Definition notifying_summary (tr : list Event) : bool :=
  existsb (fun ev => match ev with EvSummaryReport _ => true | _ => false end)
    tr.

(** The outcome and the trace of a whole run started with the given push
    records. *)
Definition outcome_of (c : Context) (records : list string) : result unit :=
  (run c (initial_state records)).1.

Definition trace_of (c : Context) (records : list string) : list Event :=
  trace (run c (initial_state records)).2.

Definition add_events (st : State) (records : list string) (evs : list Event)
  : State :=
  {| push_records := push_records st ++ records; trace := trace st ++ evs |}.

(** The four ways [_send_notification_if_needed] can go. *)
Lemma send_notification_cases (c : Context) (stats : list Stat)
    (report_type mode : string)
    (new_titles : option (gmap string (list string))) (st : State) :
  let send :=
    _send_notification_if_needed c stats report_type mode new_titles st in
  send = (Ok false, st)
  \/ send = (Ok false, add_events st [] [EvDispatch report_type mode])
  \/ send = (Ok true, add_events st [] [EvDispatch report_type mode])
  \/ send = (Ok true,
             add_events st [report_type]
               [EvDispatch report_type mode; EvRecordPush report_type]).
Proof.
  unfold _send_notification_if_needed, add_events.
  destruct (ENABLE_NOTIFICATION (config c)
            && _has_notification_configured (config c)
            && _has_valid_content (REPORT_MODE (config c)) stats new_titles);
    [|now left].
  assert (forall st0 : State,
             {| push_records := push_records st0;
                trace := trace st0 |} = st0) as Heta by (now intros []).
  set (results := dispatch_all c report_type mode stats).
  destruct (PUSH_WINDOW_ENABLED (config c)); simpl.
  - destruct (is_in_time_range c _ _); simpl; [|now left].
    destruct (PUSH_WINDOW_ONCE_PER_DAY (config c)); simpl.
    + unfold bind, has_pushed_today, emit, ret, record_push.
      destruct (push_records st) eqn:Hp; simpl; [|now left].
      destruct (bool_decide (results = ∅)); simpl;
        [right; left; now rewrite Hp|].
      destruct (any_success results); simpl.
      * right; right; right. rewrite Hp, <- app_assoc. reflexivity.
      * right; right; left. rewrite Hp. reflexivity.
    + unfold bind, emit, ret. simpl.
      destruct (bool_decide (results = ∅)); simpl.
      * right; left. now rewrite app_nil_r.
      * right; right; left. now rewrite app_nil_r.
  - unfold bind, emit, ret. simpl.
    destruct (bool_decide (results = ∅)); simpl.
    + right; left. now rewrite app_nil_r.
    + right; right; left. now rewrite app_nil_r.
Qed.

(** The two ways [_run_analysis_pipeline] can go. *)
Lemma run_analysis_pipeline_cases (c : Context)
    (data_source : gmap string (list string)) (mode : string)
    (new_titles : gmap string (list string)) (is_daily_summary : bool)
    (st : State) :
  let stats := count_frequency c data_source mode new_titles in
  let pipeline :=
    _run_analysis_pipeline c data_source mode new_titles is_daily_summary st in
  pipeline = (Ok (stats, None), add_events st [] [])
  \/ pipeline
     = (Ok (stats, generate_html c stats mode is_daily_summary),
        add_events st [] [EvHtml mode is_daily_summary]).
Proof.
  unfold _run_analysis_pipeline, add_events.
  destruct (STORAGE_FORMATS_HTML (config c)).
  - right. unfold bind, emit, ret. simpl. now rewrite app_nil_r.
  - left. unfold ret. destruct st; simpl. now rewrite !app_nil_r.
Qed.

(** One step through a run: split on the next call whose ways are known. *)
Ltac run_step :=
  match goal with
  | |- context [_run_analysis_pipeline ?c ?d ?m ?n ?s ?st] =>
      let E := fresh "E" in
      destruct (run_analysis_pipeline_cases c d m n s st) as [E|E];
      cbv zeta in E; rewrite E; clear E
  | |- context [_send_notification_if_needed ?c ?s ?r ?m ?n ?st] =>
      let E := fresh "E" in
      destruct (send_notification_cases c s r m n st) as [E|[E|[E|E]]];
      cbv zeta in E; rewrite E; clear E
  | |- context [load_frequency_words ?c] =>
      destruct (load_frequency_words c) as [?|]
  | |- context [_load_analysis_data ?c] =>
      destruct (_load_analysis_data c) as [[? ?]|]
  | |- context [crawl_websites ?c] =>
      destruct (crawl_websites c) as [? ?]
  end.

Ltac run_simpl :=
  cbv beta iota zeta
    delta [bind ret emit raise finally add_events trace push_records
           fst snd _crawl_data _generate_summary_html _generate_summary_report
           should_send_realtime should_generate_summary summary_mode
           realtime_report_type summary_report_type
           incremental_strategy current_strategy daily_strategy].

Ltac run_all := repeat (run_simpl; run_step); run_simpl.

(** The report mode is one of the three of the table, or none of them. *)
Lemma report_mode_cases (report_mode : string) :
  report_mode = "incremental" \/ report_mode = "current"
  \/ report_mode = "daily"
  \/ (report_mode <> "incremental" /\ report_mode <> "current"
      /\ report_mode <> "daily").
Proof.
  destruct (String.eqb_spec report_mode "incremental"); [tauto|].
  destruct (String.eqb_spec report_mode "current"); [tauto|].
  destruct (String.eqb_spec report_mode "daily"); tauto.
Qed.

Ltac run_done :=
  cbn; repeat split; intros; try discriminate; try reflexivity;
  try congruence; try lia.

(** ** The gates of a notification *)

Definition no_push_yet (st : State) : bool :=
  match push_records st with [] => true | _ :: _ => false end.

(** The three content conditions of the outer [if]. *)
Definition worth_sending (c : Context) (stats : list Stat)
    (new_titles : option (gmap string (list string))) : bool :=
  ENABLE_NOTIFICATION (config c) && _has_notification_configured (config c)
  && _has_valid_content (REPORT_MODE (config c)) stats new_titles.

(** The push window lets the notification through. *)
Definition window_admits (c : Context) (st : State) : bool :=
  if PUSH_WINDOW_ENABLED (config c) then
    is_in_time_range c (PUSH_WINDOW_START (config c))
      (PUSH_WINDOW_END (config c))
    && (if PUSH_WINDOW_ONCE_PER_DAY (config c) then no_push_yet st else true)
  else true.

(** [_send_notification_if_needed], branch by branch. *)
Lemma send_notification_exact (c : Context) (stats : list Stat)
    (report_type mode : string)
    (new_titles : option (gmap string (list string))) (st : State) :
  _send_notification_if_needed c stats report_type mode new_titles st
  = if worth_sending c stats new_titles && window_admits c st then
      let results := dispatch_all c report_type mode stats in
      if bool_decide (results = ∅)
      then (Ok false, add_events st [] [EvDispatch report_type mode])
      else if PUSH_WINDOW_ENABLED (config c)
              && PUSH_WINDOW_ONCE_PER_DAY (config c) && any_success results
      then (Ok true,
            add_events st [report_type]
              [EvDispatch report_type mode; EvRecordPush report_type])
      else (Ok true, add_events st [] [EvDispatch report_type mode])
    else (Ok false, st).
Proof.
  unfold _send_notification_if_needed, worth_sending, window_admits,
    add_events, no_push_yet.
  destruct (ENABLE_NOTIFICATION (config c)
            && _has_notification_configured (config c)
            && _has_valid_content (REPORT_MODE (config c)) stats new_titles);
    [|reflexivity].
  cbv zeta. set (results := dispatch_all c report_type mode stats).
  destruct (PUSH_WINDOW_ENABLED (config c)); simpl.
  - destruct (is_in_time_range c _ _); simpl; [|reflexivity].
    destruct (PUSH_WINDOW_ONCE_PER_DAY (config c)); simpl.
    + unfold bind, has_pushed_today, emit, ret, record_push.
      destruct (push_records st) eqn:Hp; simpl; [|reflexivity].
      destruct (bool_decide (results = ∅)); simpl; [now rewrite Hp|].
      destruct (any_success results); simpl.
      * rewrite Hp, <- app_assoc. reflexivity.
      * rewrite Hp. reflexivity.
    + unfold bind, emit, ret. simpl.
      destruct (bool_decide (results = ∅)); simpl; now rewrite app_nil_r.
  - unfold bind, emit, ret. simpl.
    destruct (bool_decide (results = ∅)); simpl; now rewrite app_nil_r.
Qed.

(** The window looks at the push records only. *)
Lemma window_admits_records (c : Context) (st st' : State) :
  push_records st = push_records st' ->
  window_admits c st = window_admits c st'.
Proof. unfold window_admits, no_push_yet. now intros ->. Qed.

Definition is_any_dispatch (ev : Event) : bool :=
  match ev with EvDispatch _ _ => true | _ => false end.

Definition count (f : Event -> bool) (tr : list Event) : nat :=
  length (List.filter f tr).

(** ** The summary stage *)

(** The claim as the specification words it: the summary stage is reduced
    to the HTML artifact, with no summary notification, exactly when the
    real-time notification went out in the same run. *)
Definition summary_skipped_iff_realtime_fired (c : Context)
    (records : list string) : Prop :=
  let strategy := _get_mode_strategy (REPORT_MODE (config c)) in
  let tr := trace_of c records in
  (html_only_summary tr = true
   /\ dispatches (summary_report_type strategy) tr = 0)
  <-> 0 < dispatches (realtime_report_type strategy) tr.

(** A later run of the day in incremental mode: title X is listed and
    matches its keyword group, but it is no longer new. *)
Definition quiet_rerun : Context :=
  sample_context (sample_config "incremental" false false) 600
    day_of_P1 stale_titles.

Example quiet_rerun_trace :
  run quiet_rerun (initial_state [])
  = (Ok tt,
     {| push_records := [];
        trace := [EvSave true; EvHtml "incremental" false;
                  EvSummaryHtml "daily"; EvHtml "daily" true; EvCleanup] |}).
Proof. vm_compute. reflexivity. Qed.

(** C3, as stated, fails: in the later incremental run no real-time
    notification goes out (the content gate is closed), and the summary
    stage still produces the HTML artifact only. *)
Lemma summary_skipped_without_realtime :
  ~ summary_skipped_iff_realtime_fired quiet_rerun [].
Proof.
  unfold summary_skipped_iff_realtime_fired, trace_of.
  rewrite quiet_rerun_trace. cbn. intros [Hskip _].
  specialize (Hskip (conj eq_refl eq_refl)). lia.
Qed.

(** C3, amended.  In every run there is at most one dispatch of the
    real-time report and at most one of the summary report.  In a run that
    completes, the summary stage is reduced to the HTML artifact exactly
    when the strategy of the mode has real-time sending switched on,
    whether or not the real-time notification went out: with it on, no
    summary notification is dispatched and the completed run generated the
    HTML-only summary; with it off, no real-time notification is dispatched,
    the HTML-only summary never runs, and the completed run went through the
    notifying summary stage.  In particular a run that dispatched the
    real-time notification dispatches no summary notification. *)
Theorem summary_skipped_iff_realtime_mode (c : Context)
    (records : list string) :
  let strategy := _get_mode_strategy (REPORT_MODE (config c)) in
  let tr := trace_of c records in
  dispatches (realtime_report_type strategy) tr <= 1
  /\ dispatches (summary_report_type strategy) tr <= 1
  /\ (should_send_realtime strategy = true ->
      dispatches (summary_report_type strategy) tr = 0
      /\ notifying_summary tr = false
      /\ (outcome_of c records = Ok tt -> html_only_summary tr = true))
  /\ (should_send_realtime strategy = false ->
      dispatches (realtime_report_type strategy) tr = 0
      /\ html_only_summary tr = false
      /\ (outcome_of c records = Ok tt -> notifying_summary tr = true))
  /\ (0 < dispatches (realtime_report_type strategy) tr ->
      dispatches (summary_report_type strategy) tr = 0
      /\ notifying_summary tr = false).
Proof.
  cbv zeta.
  unfold outcome_of, trace_of, run, _execute_mode_strategy, initial_state.
  destruct (report_mode_cases (REPORT_MODE (config c)))
    as [Hm|[Hm|[Hm|(Hi & Hc & Hd)]]].
  - rewrite Hm, get_mode_strategy_incremental.
    change (String.eqb "incremental" "current") with false.
    run_all; run_done.
  - rewrite Hm, get_mode_strategy_current.
    change (String.eqb "current" "current") with true.
    run_all; run_done.
  - rewrite Hm, get_mode_strategy_daily.
    change (String.eqb "daily" "current") with false.
    run_all; run_done.
  - rewrite (get_mode_strategy_other _ Hi Hc Hd).
    apply String.eqb_neq in Hc. rewrite Hc.
    run_all; run_done.
Qed.

(** A run in daily mode with a new, matching title. *)
Definition daily_run : Context :=
  sample_context (sample_config "daily" false false) 600 day_of_P1
    fresh_titles.

Lemma summary_skipped_iff_realtime_mode_witness :
  (dispatches "Daily Summary" (trace_of quiet_rerun []) = 0
   /\ notifying_summary (trace_of quiet_rerun []) = false
   /\ html_only_summary (trace_of quiet_rerun []) = true)
  /\ (dispatches "" (trace_of daily_run []) = 0
      /\ html_only_summary (trace_of daily_run []) = false
      /\ notifying_summary (trace_of daily_run []) = true).
Proof.
  split.
  - destruct (summary_skipped_iff_realtime_mode quiet_rerun [])
      as (_ & _ & Hon & _ & _).
    destruct (Hon eq_refl) as (Hnone & Hquiet & Hhtml).
    split; [exact Hnone|]. split; [exact Hquiet|].
    apply Hhtml. vm_compute. reflexivity.
  - destruct (summary_skipped_iff_realtime_mode daily_run [])
      as (_ & _ & _ & Hoff & _).
    destruct (Hoff eq_refl) as (Hnone & Hhtml & Hnotify).
    split; [exact Hnone|]. split; [exact Hhtml|].
    apply Hnotify. vm_compute. reflexivity.
Defined.

Example daily_run_trace :
  trace_of daily_run []
  = [EvSave true; EvHtml "daily" false; EvSummaryReport "Daily Summary";
     EvHtml "daily" true; EvDispatch "Daily Summary" "daily"; EvCleanup].
Proof. vm_compute. reflexivity. Qed.

(** ** An unrecognised report mode *)

Lemma load_analysis_data_words (c : Context)
    (data : gmap string (list string) * gmap string (list string)) :
  _load_analysis_data c = Some data -> load_frequency_words c = None.
Proof.
  unfold _load_analysis_data.
  destruct (read_today_titles c) as [d|]; [|discriminate].
  case_bool_decide; [discriminate|].
  destruct (load_frequency_words c); [discriminate | reflexivity].
Qed.

(** C10. The strategy lookup is total: every report mode other than
    "incremental", "current" and "daily" (the empty string, a typo) gets the
    daily strategy, and a run in such a mode behaves like one in daily mode
    instead of being rejected: the content gate is the daily one; the run
    completes whenever the frequency words load; it never dispatches a
    real-time notification, every dispatch being the one of the daily
    summary; the HTML-only summary never runs and a run that completes went
    through the notifying summary stage; and when the day's data reads back
    and the gates of the notification are open for its statistics, the
    daily summary is dispatched. *)
Theorem get_mode_strategy_total (report_mode : string) :
  report_mode <> "incremental" -> report_mode <> "current" ->
  report_mode <> "daily" ->
  _get_mode_strategy report_mode = _get_mode_strategy "daily"
  /\ should_send_realtime (_get_mode_strategy report_mode) = false
  /\ should_generate_summary (_get_mode_strategy report_mode) = true
  /\ (forall stats new_titles,
         _has_valid_content report_mode stats new_titles
         = _has_valid_content "daily" stats new_titles)
  /\ (forall (c : Context) (records : list string),
         REPORT_MODE (config c) = report_mode ->
         (load_frequency_words c = None -> outcome_of c records = Ok tt)
         /\ count is_any_dispatch (trace_of c records)
            = dispatches "Daily Summary" (trace_of c records)
         /\ dispatches "Daily Summary" (trace_of c records) <= 1
         /\ html_only_summary (trace_of c records) = false
         /\ (outcome_of c records = Ok tt ->
             notifying_summary (trace_of c records) = true)
         /\ (forall all_results new_titles,
                _load_analysis_data c = Some (all_results, new_titles) ->
                worth_sending c
                  (count_frequency c all_results "daily" new_titles)
                  (Some new_titles)
                && window_admits c (initial_state records) = true ->
                dispatches "Daily Summary" (trace_of c records) = 1)).
Proof.
  intros Hi Hc Hd. rewrite (get_mode_strategy_other _ Hi Hc Hd).
  pose proof Hi as Hi'. pose proof Hc as Hc'.
  apply String.eqb_neq in Hi', Hc'.
  split; [reflexivity|]. split; [reflexivity|]. split; [reflexivity|]. split.
  - intros stats new_titles. unfold _has_valid_content. now rewrite Hi', Hc'.
  - intros c records Hmode.
    assert (_get_mode_strategy (REPORT_MODE (config c)) = daily_strategy)
      as Hstrategy by (rewrite Hmode; now apply get_mode_strategy_other).
    assert (String.eqb (REPORT_MODE (config c)) "current" = false) as Hcur
      by now rewrite Hmode.
    unfold outcome_of, trace_of, run, _execute_mode_strategy, initial_state,
      count.
    rewrite Hstrategy, Hcur.
    split; [|split; [|split; [|split; [|split]]]].
    1-5: run_all; run_done.
    intros all_results new_titles Hload Hgate.
    pose proof (load_analysis_data_words c _ Hload) as Hwords.
    rewrite Hwords.
    repeat
      (run_simpl;
       first
         [ rewrite Hload
         | match goal with
           | |- context [_send_notification_if_needed ?c ?s ?r ?m ?n ?st] =>
               rewrite (send_notification_exact c s r m n st);
               rewrite (window_admits_records c st (initial_state records))
                 by (cbn; rewrite ?app_nil_r; reflexivity);
               unfold initial_state; rewrite Hgate; cbv zeta;
               destruct (bool_decide _); [|destruct (_ && _ && any_success _)]
           end
         | run_step ]);
      run_simpl; cbn; reflexivity.
Qed.

Lemma get_mode_strategy_total_witness :
  _get_mode_strategy "" = _get_mode_strategy "daily"
  /\ dispatches "Daily Summary"
       (trace_of
          (sample_context (sample_config "dialy" false false) 600 day_of_P1
             fresh_titles) []) = 1.
Proof.
  split.
  - apply (get_mode_strategy_total ""); discriminate.
  - destruct (get_mode_strategy_total "dialy") as (_ & _ & _ & _ & Hrun);
      [discriminate ..|].
    destruct (Hrun (sample_context (sample_config "dialy" false false) 600
                      day_of_P1 fresh_titles) [] eq_refl)
      as (_ & _ & _ & _ & _ & Hsent).
    apply (Hsent (<["P1" := ["X"]]> ∅) fresh_titles);
      vm_compute; reflexivity.
Defined.

Example typo_mode_trace :
  trace_of
    (sample_context (sample_config "dialy" false false) 600 day_of_P1
       fresh_titles) []
  = [EvSave true; EvHtml "dialy" false; EvSummaryReport "Daily Summary";
     EvHtml "daily" true; EvDispatch "Daily Summary" "daily"; EvCleanup].
Proof. vm_compute. reflexivity. Qed.

(** ** Errors that end a run *)







(** A run in current mode whose read-back finds nothing. *)
Definition broken_storage : Context :=
  sample_context (sample_config "current" false false) 600 (Ok ∅)
    fresh_titles.


Example broken_storage_trace :
  run broken_storage (initial_state [])
  = (Raise RuntimeError,
     {| push_records := []; trace := [EvSave true; EvCleanup] |}).
Proof. vm_compute. reflexivity. Qed.

(** A failed read-back does not abort a run in incremental mode. *)
Example incremental_survives_failed_read :
  (run (sample_context (sample_config "incremental" false false) 600
          (Raise OtherException) fresh_titles) (initial_state [])).1
  = Ok tt.
Proof. vm_compute. reflexivity. Qed.

End MainFacts.

(* ===================================================================== *)
(** * core/config.py: limiting, indexing and how they compose             *)
(* ===================================================================== *)

Module AccountsFacts.

Import Py Config Accounts PyFacts ConfigFacts.

Lemma slice_to_prefix {A : Type} (l : list A) (stop : Z) :
  exists rest : list A, l = slice_to l stop ++ rest.
Proof.
  unfold slice_to. destruct (0 <=? stop)%Z.
  - exists (drop (Z.to_nat stop) l). now rewrite take_drop.
  - exists (drop (length l - Z.to_nat (- stop)) l). now rewrite take_drop.
Qed.

(** X1. [limit_accounts] keeps a prefix of the accounts, in their order,
    whatever the limit; under a limit that is not negative the result has
    min(len, max_count) entries, a list within the limit comes back as it
    is, and limiting a second time changes nothing. *)
Theorem limit_accounts_prefix (accounts : list string) (max_count : Z)
    (channel_name : string) :
  (exists rest : list string,
      accounts = limit_accounts accounts max_count channel_name ++ rest)
  /\ ((0 <= max_count)%Z ->
      Z.of_nat (length (limit_accounts accounts max_count channel_name))
      = Z.min (Z.of_nat (length accounts)) max_count
      /\ ((Z.of_nat (length accounts) <= max_count)%Z ->
          limit_accounts accounts max_count channel_name = accounts)
      /\ limit_accounts (limit_accounts accounts max_count channel_name)
           max_count channel_name
         = limit_accounts accounts max_count channel_name).
Proof.
  split.
  - unfold limit_accounts. destruct (max_count <? _)%Z.
    + apply slice_to_prefix.
    + exists []. now rewrite app_nil_r.
  - intros Hmax. unfold limit_accounts, slice_to.
    replace (0 <=? max_count)%Z with true by (symmetry; now apply Z.leb_le).
    destruct (max_count <? Z.of_nat (length accounts))%Z eqn:E.
    + apply Z.ltb_lt in E. rewrite length_take.
      split; [lia|]. split; [lia|].
      replace (max_count <? Z.of_nat (Z.to_nat max_count `min` length accounts))%Z
        with false by (symmetry; apply Z.ltb_ge; lia).
      reflexivity.
    + apply Z.ltb_ge in E. split; [lia|]. split; [reflexivity|].
      replace (max_count <? Z.of_nat (length accounts))%Z with false
        by (symmetry; apply Z.ltb_ge; lia).
      reflexivity.
Qed.

Lemma limit_accounts_prefix_witness :
  Z.of_nat (length (limit_accounts ["a1"; "a2"; "a3"] 2 "Slack"))
  = Z.min (Z.of_nat (length ["a1"; "a2"; "a3"])) 2
  /\ limit_accounts ["a1"; "a2"; "a3"] 2 "Slack" = ["a1"; "a2"].
Proof.
  split; [|reflexivity].
  apply (limit_accounts_prefix ["a1"; "a2"; "a3"] 2 "Slack"). lia.
Defined.

(** X2. A negative limit does not empty the list: [limit_accounts] then
    drops |max_count| accounts from the end, keeping max(0, len + max_count)
    of them. *)
Theorem limit_accounts_negative (accounts : list string) (max_count : Z)
    (channel_name : string) :
  (max_count < 0)%Z ->
  Z.of_nat (length (limit_accounts accounts max_count channel_name))
  = Z.max 0 (Z.of_nat (length accounts) + max_count).
Proof.
  intros Hneg. unfold limit_accounts, slice_to.
  replace (max_count <? Z.of_nat (length accounts))%Z with true
    by (symmetry; apply Z.ltb_lt; lia).
  replace (0 <=? max_count)%Z with false by (symmetry; apply Z.leb_gt; lia).
  rewrite length_take. lia.
Qed.

Lemma limit_accounts_negative_witness :
  Z.of_nat (length (limit_accounts ["a1"; "a2"; "a3"] (-1) "Slack"))
  = Z.max 0 (Z.of_nat (length ["a1"; "a2"; "a3"]) + -1)
  /\ limit_accounts ["a1"; "a2"; "a3"] (-1) "Slack" = ["a1"; "a2"].
Proof.
  split; [|reflexivity].
  apply (limit_accounts_negative ["a1"; "a2"; "a3"] (-1) "Slack"). lia.
Defined.

Lemma getitem_nonneg {A : Type} (l : list A) (i : nat) :
  getitem l (Z.of_nat i)
  = match l !! i with Some a => Value a | None => IndexError end.
Proof.
  unfold getitem.
  replace (0 <=? Z.of_nat i)%Z with true by (symmetry; apply Z.leb_le; lia).
  replace (Z.of_nat i <? 0)%Z with false by (symmetry; apply Z.ltb_ge; lia).
  now rewrite Nat2Z.id.
Qed.

(** An index that is not negative never raises. *)
Lemma get_account_at_index_nonneg (accounts : list string) (i : nat)
    (default : string) :
  get_account_at_index accounts (Z.of_nat i) default
  = Value (match accounts !! i with
           | Some a => if truthy a then a else default
           | None => default
           end).
Proof.
  unfold get_account_at_index. rewrite getitem_nonneg.
  destruct (Z.of_nat i <? Z.of_nat (length accounts))%Z eqn:E.
  - apply Z.ltb_lt in E.
    destruct (lookup_lt_is_Some_2 accounts i) as [a Ha]; [lia|].
    now rewrite Ha.
  - apply Z.ltb_ge in E. rewrite (lookup_ge_None_2 accounts i) by lia.
    reflexivity.
Qed.

(** X3. [get_account_at_index] at an index from -len on answers a value,
    which is either the default or a non-empty entry of the list, so that
    with a non-empty default it never answers the empty string; at an index
    below -len it raises [IndexError]. *)
Theorem get_account_at_index_safe (accounts : list string) (index : Z)
    (default : string) :
  ((- Z.of_nat (length accounts) <= index)%Z ->
   exists v : string,
     get_account_at_index accounts index default = Value v
     /\ (v = default \/ (v <> "" /\ v ∈ accounts))
     /\ (default <> "" -> v <> ""))
  /\ ((index < - Z.of_nat (length accounts))%Z ->
      get_account_at_index accounts index default = IndexError).
Proof.
  split.
  - intros Hlow. unfold get_account_at_index, getitem.
    destruct (index <? Z.of_nat (length accounts))%Z eqn:E;
      [|exists default; tauto].
    apply Z.ltb_lt in E.
    set (position := if (0 <=? index)%Z then index
                     else (Z.of_nat (length accounts) + index)%Z).
    assert (0 <= position < Z.of_nat (length accounts))%Z as Hpos.
    { unfold position. destruct (0 <=? index)%Z eqn:E0.
      - apply Z.leb_le in E0. lia.
      - apply Z.leb_gt in E0. lia. }
    replace (position <? 0)%Z with false by (symmetry; apply Z.ltb_ge; lia).
    destruct (lookup_lt_is_Some_2 accounts (Z.to_nat position)) as [a Ha];
      [lia|].
    rewrite Ha. destruct (truthy a) eqn:Ht.
    + exists a. apply truthy_true in Ht. split; [reflexivity|].
      split; [|tauto]. right. split; [assumption|].
      apply list_elem_of_lookup. eauto.
    + exists default. tauto.
  - intros Hlow. unfold get_account_at_index, getitem.
    replace (index <? Z.of_nat (length accounts))%Z with true
      by (symmetry; apply Z.ltb_lt; lia).
    replace (0 <=? index)%Z with false by (symmetry; apply Z.leb_gt; lia).
    replace (Z.of_nat (length accounts) + index <? 0)%Z with true
      by (symmetry; apply Z.ltb_lt; lia).
    reflexivity.
Qed.

Lemma get_account_at_index_safe_witness :
  (exists v : string,
      get_account_at_index ["a"; ""; "c"] 1 "fallback" = Value v
      /\ (v = "fallback" \/ (v <> "" /\ v ∈ ["a"; ""; "c"]))
      /\ ("fallback" <> "" -> v <> ""))
  /\ get_account_at_index ["a"; ""; "c"] (-4) "fallback" = IndexError.
Proof.
  split.
  - apply (get_account_at_index_safe ["a"; ""; "c"] 1 "fallback").
    simpl. lia.
  - apply (get_account_at_index_safe ["a"; ""; "c"] (-4) "fallback").
    simpl. lia.
Defined.

Example get_account_at_index_from_end :
  get_account_at_index ["a"; "b"; "c"] (-1) "" = Value "c".
Proof. reflexivity. Qed.

(** ** Values that went through [strip] *)

(** Nothing to strip at the front. *)
Definition no_lead (s : list ascii) : Prop :=
  match s with
  | [] => True
  | c :: _ => is_space c = false
  end.

Lemma lstrip_no_lead (s : list ascii) : no_lead (lstrip_l s).
Proof.
  induction s as [|c s IH]; simpl; [exact I|].
  destruct (is_space c) eqn:E; [exact IH | exact E].
Qed.

Lemma lstrip_fixed (s : list ascii) : no_lead s -> lstrip_l s = s.
Proof. destruct s as [|c s]; simpl; [reflexivity|]. now intros ->. Qed.

Lemma lstrip_snoc (s : list ascii) (c : ascii) :
  is_space c = false -> exists w, lstrip_l (s ++ [c]) = w ++ [c].
Proof.
  intros Hc. induction s as [|d s IH]; simpl.
  - rewrite Hc. now exists [].
  - destruct (is_space d); [exact IH|]. now exists (d :: s).
Qed.

Lemma rstrip_no_lead (s : list ascii) : no_lead s -> no_lead (rstrip_l s).
Proof.
  unfold rstrip_l. destruct s as [|c s]; [intros _; exact I|].
  simpl. intros Hc. destruct (lstrip_snoc (rev s) c Hc) as [w ->].
  rewrite rev_app_distr. exact Hc.
Qed.

Lemma strip_l_idempotent (s : list ascii) : strip_l (strip_l s) = strip_l s.
Proof.
  unfold strip_l.
  rewrite (lstrip_fixed (rstrip_l (lstrip_l s)))
    by apply rstrip_no_lead, lstrip_no_lead.
  unfold rstrip_l at 1 2. rewrite rev_involutive.
  rewrite (lstrip_fixed (lstrip_l _)) by apply lstrip_no_lead.
  reflexivity.
Qed.

Lemma strip_idempotent (s : string) : strip (strip s) = strip s.
Proof.
  unfold strip. rewrite list_ascii_of_string_of_list_ascii.
  now rewrite strip_l_idempotent.
Qed.

(** X4. Whatever [parse_multi_account_config] returns, every value in it
    has gone through [strip] (stripping it again changes nothing), and the
    list is either empty or holds at least one non-empty value: a list of
    placeholders only is never returned. *)
Theorem parse_multi_account_config_values (config_value separator : string)
    (accounts : list string) :
  parse_multi_account_config config_value separator = Ok accounts ->
  Forall (fun a => strip a = a) accounts
  /\ (accounts = [] \/ Exists (fun a => a <> "") accounts).
Proof.
  unfold parse_multi_account_config.
  destruct (truthy config_value); simpl;
    [|intros [= <-]; split; [constructor | now left]].
  destruct (split config_value separator) as [fs|e]; [|discriminate].
  destruct (all_empty (map strip fs)) eqn:E; intros [= <-].
  - split; [constructor | now left].
  - split.
    + apply Forall_map. apply Forall_forall. intros f _.
      apply strip_idempotent.
    + right. apply List.neg_Forall_Exists_neg.
      * intros a. apply string_dec.
      * intros Hall. apply all_empty_true in Hall. congruence.
Qed.

Lemma parse_multi_account_config_values_witness :
  Forall (fun a => strip a = a) ["a"; ""; "c"]
  /\ (["a"; ""; "c"] = [] \/ Exists (fun a => a <> "") ["a"; ""; "c"]).
Proof.
  apply (parse_multi_account_config_values " a ;; c" ";"). reflexivity.
Defined.

(** X5. Parsing and indexing compose: for a non-empty separator, asking
    the parsed list for account [i] with a default answers the stripped
    [i]-th field of the string when that field is not blank, and the
    default when the field is blank (a placeholder) or there is no such
    field. *)
Theorem parse_then_get_account (config_value separator default : string)
    (accounts : list string) (i : nat) :
  separator <> "" ->
  parse_multi_account_config config_value separator = Ok accounts ->
  get_account_at_index accounts (Z.of_nat i) default
  = Value (match fields config_value separator !! i with
           | Some f => if truthy (strip f) then strip f else default
           | None => default
           end).
Proof.
  intros Hsep Hparse. rewrite get_account_at_index_nonneg. f_equal.
  destruct (parse_cases config_value separator Hsep) as [Hblank Hsome].
  destruct (List.Forall_Exists_dec blank
              (fun f => string_dec (strip f) "")
              (fields config_value separator)) as [Hall|Hex].
  - rewrite (Hblank Hall) in Hparse. injection Hparse as <-.
    rewrite lookup_nil.
    destruct (fields config_value separator !! i) as [f|] eqn:Hf;
      [|reflexivity].
    rewrite Forall_forall in Hall.
    assert (blank f) as Hb by (apply Hall, list_elem_of_lookup; eauto).
    unfold blank in Hb. now rewrite Hb.
  - rewrite (Hsome Hex) in Hparse. injection Hparse as <-.
    change (map strip) with (fmap (M:=list) strip).
    rewrite list_lookup_fmap.
    destruct (fields config_value separator !! i); reflexivity.
Qed.

Lemma parse_then_get_account_witness :
  get_account_at_index ["a"; ""; "c"] (Z.of_nat 1) "fallback"
  = Value "fallback".
Proof.
  apply (parse_then_get_account "a;;c" ";" "fallback" ["a"; ""; "c"] 1);
    [discriminate | reflexivity].
Defined.

(** ** What a verdict of [validate_paired_configs] tells *)

(** Some account list is not empty. *)
Definition some_accounts (configs : gmap string (list string)) : Prop :=
  exists k v, configs !! k = Some v /\ v <> [].

(** Every non-empty account list has [n] entries. *)
Definition uniform (configs : gmap string (list string)) (n : nat) : Prop :=
  forall k v, configs !! k = Some v -> v <> [] -> length v = n.

(** Two non-empty account lists differ in length. *)
Definition mismatch (configs : gmap string (list string)) : Prop :=
  exists k1 v1 k2 v2,
    configs !! k1 = Some v1 /\ configs !! k2 = Some v2
    /\ v1 <> [] /\ v2 <> [] /\ length v1 <> length v2.

(** A required key is absent or has an empty list. *)
Definition required_missing (configs : gmap string (list string))
    (required_keys : option (list string)) : Prop :=
  exists k, k ∈ default [] required_keys
            /\ (configs !! k = None \/ configs !! k = Some []).

Lemma non_empty_empty (configs : gmap string (list string)) :
  non_empty configs = ∅ <-> ~ some_accounts configs.
Proof.
  split.
  - intros Hemp (k & v & Hk & Hv).
    assert (non_empty configs !! k = Some v) as E
      by now apply non_empty_lookup.
    rewrite Hemp, lookup_empty in E. discriminate.
  - intros Hno. apply map_eq. intros k. rewrite lookup_empty.
    destruct (non_empty configs !! k) as [v|] eqn:E; [|reflexivity].
    apply non_empty_lookup in E as [Hk Hv]. exfalso. apply Hno.
    now exists k, v.
Qed.

Lemma existsb_required (configs : gmap string (list string))
    (required_keys : option (list string)) :
  existsb (required_absent (non_empty configs)) (default [] required_keys)
  = true <-> required_missing configs required_keys.
Proof.
  unfold required_missing. rewrite existsb_exists.
  split; intros (k & Hin & Hk); exists k.
  - split; [now apply list_elem_of_In | now apply required_absent_true].
  - split; [now apply list_elem_of_In | now apply required_absent_true].
Qed.

Lemma size_two_elements (X : gset nat) :
  1 < size X -> exists a b, a ∈ X /\ b ∈ X /\ a <> b.
Proof.
  unfold size, set_size. simpl. intros Hsize.
  pose proof (NoDup_elements X) as Hnd.
  destruct (elements X) as [|a [|b l]] eqn:E; simpl in Hsize; try lia.
  exists a, b. rewrite <- !elem_of_elements, E.
  split; [left|]. split; [right; left|].
  apply NoDup_cons in Hnd as [Hnotin _]. intros ->. apply Hnotin. left.
Qed.

(** The verdicts of [validate_paired_configs], read backwards. *)
Lemma validate_paired_configs_inv (configs : gmap string (list string))
    (channel_name : string) (required_keys : option (list string)) :
  match validate_paired_configs configs channel_name required_keys with
  | (true, n) =>
      (n = 0 /\ (~ some_accounts configs
                 \/ required_missing configs required_keys))
      \/ (0 < n /\ some_accounts configs
          /\ ~ required_missing configs required_keys
          /\ uniform configs n)
  | (false, n) =>
      n = 0 /\ mismatch configs
      /\ ~ required_missing configs required_keys
  end.
Proof.
  unfold validate_paired_configs. case_bool_decide as Hemp.
  { left. split; [reflexivity|]. left. now apply non_empty_empty. }
  destruct (existsb _ _) eqn:Hreq.
  { left. split; [reflexivity|]. right. now apply existsb_required. }
  assert (~ required_missing configs required_keys) as Hpresent.
  { rewrite <- existsb_required. congruence. }
  assert (some_accounts configs) as Hsome.
  { apply map_choose in Hemp as (k0 & v0 & E0).
    apply non_empty_lookup in E0 as [Hk0 Hv0]. now exists k0, v0. }
  case_bool_decide as Hsize.
  - split; [reflexivity|]. split; [|assumption].
    apply size_two_elements in Hsize as (a & b & Ha & Hb & Hab).
    apply elem_of_unique_lengths in Ha as (k1 & v1 & E1 & <-).
    apply elem_of_unique_lengths in Hb as (k2 & v2 & E2 & <-).
    apply non_empty_lookup in E1 as [E1 Hv1].
    apply non_empty_lookup in E2 as [E2 Hv2].
    now exists k1, v1, k2, v2.
  - destruct Hsome as (k0 & v0 & Hk0 & Hv0).
    assert (forall k v, configs !! k = Some v -> v <> [] ->
                        length v = length v0) as Hsame.
    { intros k v Hk Hv.
      destruct (decide (length v = length v0)) as [|Hne]; [assumption|].
      exfalso. apply Hsize.
      apply (two_elements_size _ (length v) (length v0)); [| |assumption];
        apply elem_of_unique_lengths.
      - exists k, v. split; [now apply non_empty_lookup | reflexivity].
      - exists k0, v0. split; [now apply non_empty_lookup | reflexivity]. }
    assert (unique_lengths (non_empty configs) = {[ length v0 ]}) as Hul.
    { apply set_eq. intros n.
      rewrite elem_of_unique_lengths, elem_of_singleton. split.
      - intros (k & v & E & <-). apply non_empty_lookup in E as [Hk Hv].
        now apply (Hsame k v).
      - intros ->. exists k0, v0. split; [|reflexivity].
        now apply non_empty_lookup. }
    rewrite Hul, elements_singleton. simpl. right.
    split; [destruct v0; [congruence | simpl; lia]|].
    split; [now exists k0, v0|]. split; assumption.
Qed.

Lemma required_present_or_missing (configs : gmap string (list string))
    (required_keys : option (list string)) :
  ~ required_missing configs required_keys ->
  required_present configs required_keys.
Proof.
  intros Hno k Hin. destruct (configs !! k) as [[|a v]|] eqn:E.
  - exfalso. apply Hno. exists k. tauto.
  - exists (a :: v). split; [reflexivity | discriminate].
  - exfalso. apply Hno. exists k. tauto.
Qed.

(** X6. When [validate_paired_configs] accepts with a positive count n,
    every required key has exactly n accounts, and so has every other
    key whose list is not empty: each account index below n is paired on
    all of them. *)
Theorem validate_paired_configs_accepts
    (configs : gmap string (list string)) (channel_name : string)
    (required_keys : option (list string)) (n : nat) :
  validate_paired_configs configs channel_name required_keys = (true, n) ->
  0 < n ->
  (forall k, k ∈ default [] required_keys ->
             exists v, configs !! k = Some v /\ length v = n)
  /\ (forall k v, configs !! k = Some v -> v <> [] -> length v = n).
Proof.
  intros Hv Hn.
  pose proof (validate_paired_configs_inv configs channel_name required_keys)
    as Hinv.
  rewrite Hv in Hinv. destruct Hinv as [[-> _]|(_ & _ & Hreq & Huni)]; [lia|].
  split; [|exact Huni].
  intros k Hin.
  destruct (required_present_or_missing _ _ Hreq k Hin) as (v & Hk & Hne).
  exists v. split; [assumption|]. now apply (Huni k).
Qed.

Lemma validate_paired_configs_accepts_witness :
  (forall k, k ∈ ["token"; "chat"] ->
             exists v, telegram_paired !! k = Some v /\ length v = 2)
  /\ (forall k v, telegram_paired !! k = Some v -> v <> [] -> length v = 2).
Proof.
  apply (validate_paired_configs_accepts telegram_paired "Telegram"
           (Some ["token"; "chat"]) 2);
    [vm_compute; reflexivity | lia].
Defined.

(** X7. [validate_paired_configs] rejects only a mapping in which two
    non-empty account lists differ in length and no required key is absent
    or empty; the count it then reports is 0. *)
Theorem validate_paired_configs_rejects
    (configs : gmap string (list string)) (channel_name : string)
    (required_keys : option (list string)) (n : nat) :
  validate_paired_configs configs channel_name required_keys = (false, n) ->
  n = 0 /\ mismatch configs /\ ~ required_missing configs required_keys.
Proof.
  intros Hv.
  pose proof (validate_paired_configs_inv configs channel_name required_keys)
    as Hinv.
  now rewrite Hv in Hinv.
Qed.

Lemma validate_paired_configs_rejects_witness :
  0 = 0 /\ mismatch telegram_mismatch
  /\ ~ required_missing telegram_mismatch (Some ["token"; "chat"]).
Proof.
  apply (validate_paired_configs_rejects telegram_mismatch "Telegram"
           (Some ["token"; "chat"]) 0).
  vm_compute. reflexivity.
Defined.

Lemma mismatch_some_accounts (configs : gmap string (list string)) :
  mismatch configs -> some_accounts configs.
Proof. intros (k1 & v1 & _ & _ & H1 & _ & Hv1 & _). now exists k1, v1. Qed.

Lemma mismatch_not_uniform (configs : gmap string (list string)) (n : nat) :
  mismatch configs -> ~ uniform configs n.
Proof.
  intros (k1 & v1 & k2 & v2 & H1 & H2 & Hv1 & Hv2 & Hne) Huni.
  rewrite (Huni k1 v1), (Huni k2 v2) in Hne by assumption. congruence.
Qed.

Lemma validate_paired_configs_unconfigured
    (configs : gmap string (list string)) (channel_name : string)
    (required_keys : option (list string)) :
  ~ some_accounts configs \/ required_missing configs required_keys ->
  validate_paired_configs configs channel_name required_keys = (true, 0).
Proof.
  intros Hun.
  pose proof (validate_paired_configs_inv configs channel_name required_keys)
    as Hinv.
  destruct (validate_paired_configs configs channel_name required_keys)
    as [[|] n].
  - destruct Hinv as [[-> _]|(_ & Hsome & Hreq & _)]; [reflexivity|tauto].
  - destruct Hinv as (_ & Hmis & Hreq).
    apply mismatch_some_accounts in Hmis. tauto.
Qed.

Lemma validate_paired_configs_uniform
    (configs : gmap string (list string)) (channel_name : string)
    (required_keys : option (list string)) (n : nat) :
  some_accounts configs -> ~ required_missing configs required_keys ->
  uniform configs n ->
  validate_paired_configs configs channel_name required_keys = (true, n).
Proof.
  intros Hsome Hreq Huni.
  pose proof (validate_paired_configs_inv configs channel_name required_keys)
    as Hinv.
  destruct (validate_paired_configs configs channel_name required_keys)
    as [[|] n'].
  - destruct Hinv as [[_ [H|H]]|(_ & _ & _ & Huni')]; [tauto | tauto |].
    destruct Hsome as (k & v & Hk & Hv).
    now rewrite <- (Huni k v), <- (Huni' k v).
  - destruct Hinv as (_ & Hmis & _).
    now apply (mismatch_not_uniform _ n) in Hmis.
Qed.

Lemma limit_accounts_take (accounts : list string) (max_count : Z)
    (channel_name : string) :
  (0 <= max_count)%Z ->
  limit_accounts accounts max_count channel_name
  = take (Z.to_nat max_count) accounts.
Proof.
  intros Hmax. unfold limit_accounts, slice_to.
  replace (0 <=? max_count)%Z with true by (symmetry; now apply Z.leb_le).
  destruct (max_count <? Z.of_nat (length accounts))%Z eqn:E; [reflexivity|].
  apply Z.ltb_ge in E. rewrite take_ge by lia. reflexivity.
Qed.

(** Every account list of a channel cut to the same limit. *)
Definition limit_all (configs : gmap string (list string)) (max_count : Z)
    (channel_name : string) : gmap string (list string) :=
  (fun accounts => limit_accounts accounts max_count channel_name) <$> configs.

Lemma limit_all_lookup (configs : gmap string (list string)) (max_count : Z)
    (channel_name k : string) :
  (0 <= max_count)%Z ->
  limit_all configs max_count channel_name !! k
  = take (Z.to_nat max_count) <$> configs !! k.
Proof.
  intros Hmax. unfold limit_all. rewrite lookup_fmap.
  destruct (configs !! k); simpl; [|reflexivity].
  now rewrite limit_accounts_take.
Qed.

(** X8. Limiting keeps a pairing valid: when [validate_paired_configs]
    accepts a mapping with count n, then after every account list is cut by
    [limit_accounts] to the same limit max_count (not negative), it accepts
    the result with count min(n, max_count). *)
Theorem validate_paired_configs_limited
    (configs : gmap string (list string)) (channel_name : string)
    (required_keys : option (list string)) (n : nat) (max_count : Z) :
  (0 <= max_count)%Z ->
  validate_paired_configs configs channel_name required_keys = (true, n) ->
  validate_paired_configs (limit_all configs max_count channel_name)
    channel_name required_keys
  = (true, Nat.min n (Z.to_nat max_count)).
Proof.
  intros Hmax Hv.
  pose proof (validate_paired_configs_inv configs channel_name required_keys)
    as Hinv.
  rewrite Hv in Hinv.
  assert (forall k v',
             limit_all configs max_count channel_name !! k = Some v' ->
             exists v, configs !! k = Some v
                       /\ v' = take (Z.to_nat max_count) v) as Hback.
  { intros k v' Hk. rewrite limit_all_lookup in Hk by assumption.
    destruct (configs !! k) as [v|]; [|discriminate].
    injection Hk as <-. now exists v. }
  destruct Hinv as [[-> Hun]|(Hn & Hsome & Hreq & Huni)].
  - simpl. apply validate_paired_configs_unconfigured.
    destruct Hun as [Hno|(k & Hin & Hk)].
    + left. intros (k & v' & Hk & Hv').
      destruct (Hback k v' Hk) as (v & Hkv & ->).
      apply Hno. exists k, v. split; [assumption|].
      intros ->. now rewrite take_nil in Hv'.
    + right. exists k. split; [assumption|].
      rewrite limit_all_lookup by assumption.
      destruct Hk as [-> | ->]; [now left | right].
      simpl. now rewrite take_nil.
  - destruct (Z.to_nat max_count) as [|m] eqn:Em.
    + rewrite Nat.min_0_r. apply validate_paired_configs_unconfigured.
      left. intros (k & v' & Hk & Hv').
      destruct (Hback k v' Hk) as (v & _ & ->).
      now apply Hv'.
    + apply validate_paired_configs_uniform.
      * destruct Hsome as (k & v & Hk & Hne).
        exists k, (take (S m) v). split.
        -- rewrite limit_all_lookup, Hk by assumption.
           rewrite ?Em. reflexivity.
        -- destruct v; [congruence | discriminate].
      * intros (k & Hin & Hk). apply Hreq. exists k. split; [assumption|].
        rewrite limit_all_lookup in Hk by assumption. rewrite ?Em in Hk.
        destruct (configs !! k) as [[|a v]|]; simpl in Hk;
          [tauto | destruct Hk; discriminate | tauto].
      * intros k v' Hk Hv'. destruct (Hback k v' Hk) as (v & Hkv & ->).
        rewrite length_take.
        rewrite (Huni k v Hkv); [lia|].
        intros ->. now rewrite take_nil in Hv'.
Qed.

Lemma validate_paired_configs_limited_witness :
  validate_paired_configs (limit_all telegram_paired 1 "Telegram")
    "Telegram" (Some ["token"; "chat"])
  = (true, Nat.min 2 (Z.to_nat 1)).
Proof.
  apply (validate_paired_configs_limited telegram_paired "Telegram"
           (Some ["token"; "chat"]) 2 1);
    [lia | vm_compute; reflexivity].
Defined.

End AccountsFacts.

(* ===================================================================== *)
(** * storage/manager.py: memoization, credentials, pulling, retention    *)
(* ===================================================================== *)

Module StorageOpsFacts.

Import Py Storage StorageOps PyFacts StorageFacts.

(** X9. The backend is built at most once per manager: after a first
    [get_backend], every later call answers the same backend and leaves the
    manager as it is, also in a process whose environment or remote store
    has changed since. *)
Theorem get_backend_stable (m : StorageManager) (p p' : Process) :
  get_backend (get_backend m p).2 p' = get_backend m p.
Proof.
  pose proof (get_backend_memoized m p) as Hmemo.
  destruct (get_backend m p) as [b m'] eqn:E. simpl in *.
  unfold get_backend at 1. now rewrite Hmemo.
Qed.

Lemma create_remote_backend_Some (m : StorageManager) (p : Process)
    (b : StorageBackend) :
  _create_remote_backend m p = Some b <->
  remote_failure p (remote_backend_of m p) = None /\ b = remote_backend_of m p.
Proof.
  unfold _create_remote_backend, construct_remote.
  destruct (remote_failure p (remote_backend_of m p)) as [[]|].
  all: split; [intros H | intros [H1 H2]]; try discriminate.
  - injection H as <-. tauto.
  - now subst.
Qed.

(** X10. With no backend memoized, [get_backend] answers a Remote backend
    exactly when the resolved type is "remote" and the remote construction
    raises nothing, and the backend is then the one built from the resolved
    credentials; otherwise it answers the Local backend of the manager's
    settings.  An unknown backend type thus ends on Local. *)
Theorem get_backend_remote_iff (m : StorageManager) (p : Process) :
  _backend m = None ->
  (is_remote (get_backend m p).1 = true
   <-> _resolve_backend_type m p = "remote"
       /\ remote_failure p (remote_backend_of m p) = None)
  /\ (is_remote (get_backend m p).1 = true ->
      (get_backend m p).1 = remote_backend_of m p)
  /\ (is_remote (get_backend m p).1 = false ->
      (get_backend m p).1 = local_backend_of m).
Proof.
  intros Hnone. unfold get_backend. rewrite Hnone.
  destruct (String.eqb_spec (_resolve_backend_type m p) "remote") as [Hr|Hr].
  - destruct (_create_remote_backend m p) as [b|] eqn:Hc.
    + apply create_remote_backend_Some in Hc as [Hok ->].
      rewrite Hr. simpl. repeat split; auto; discriminate.
    + simpl. split; [split; [discriminate|]|split; [discriminate|reflexivity]].
      intros [_ Hok].
      assert (_create_remote_backend m p = Some (remote_backend_of m p)) as E
        by now apply create_remote_backend_Some.
      congruence.
  - simpl. split; [split; [discriminate | tauto]|].
    split; [discriminate | reflexivity].
Qed.

(** A manager and a process in which the remote construction succeeds. *)
Lemma get_backend_remote_iff_witness :
  is_remote (get_backend remote_manager (ci_process (fun _ => None))).1 = true
  /\ is_remote
       (get_backend (manager "s3" ∅ 0 0) (ci_process (fun _ => None))).1
     = false.
Proof.
  split.
  - apply (get_backend_remote_iff remote_manager
             (ci_process (fun _ => None)) eq_refl).
    split; reflexivity.
  - destruct (get_backend_remote_iff (manager "s3" ∅ 0 0)
                (ci_process (fun _ => None)) eq_refl) as [Hiff _].
    apply not_true_is_false. intros H. apply Hiff in H as [H _].
    discriminate H.
Defined.

(** X11. With the type "auto" and no memoized backend, a process outside
    GitHub Actions gets the Local backend whatever remote credentials the
    config and the environment hold, and whether or not the remote store
    could be reached. *)
Theorem get_backend_auto_outside_ci (m : StorageManager) (p : Process) :
  backend_type m = "auto" -> _backend m = None ->
  environ p !! "GITHUB_ACTIONS" <> Some "true" ->
  (get_backend m p).1 = local_backend_of m.
Proof.
  intros Hauto Hnone Hci. unfold get_backend, _resolve_backend_type.
  rewrite Hnone, Hauto. simpl.
  unfold is_github_actions. rewrite bool_decide_eq_false_2 by assumption.
  reflexivity.
Qed.

(** All four credentials in the config, but no CI. *)
Definition full_config : gmap string string :=
  <["bucket_name" := "b"]>
    (<["access_key_id" := "k"]>
       (<["secret_access_key" := "s"]>
          (<["endpoint_url" := "https://s3.example"]> ∅))).

Lemma get_backend_auto_outside_ci_witness :
  _has_remote_config (manager "auto" full_config 0 0)
    {| environ := ∅; remote_failure := fun _ => None |} = true
  /\ (get_backend (manager "auto" full_config 0 0)
        {| environ := ∅; remote_failure := fun _ => None |}).1
     = LocalStorageBackend "output" true true "America/New_York".
Proof.
  split; [reflexivity|].
  apply (get_backend_auto_outside_ci (manager "auto" full_config 0 0)
           {| environ := ∅; remote_failure := fun _ => None |});
    [reflexivity | reflexivity | discriminate].
Defined.

Lemma credential_or_empty_credential (m : StorageManager) (p : Process)
    (cfg_key env_key : string) :
  credential_or_empty m p cfg_key env_key
  = default "" (credential m p cfg_key env_key).
Proof.
  unfold credential_or_empty, credential, or_.
  destruct (remote_config m !! cfg_key) as [[|a v]|]; reflexivity.
Qed.

Lemma present_credential_or_empty (m : StorageManager) (p : Process)
    (cfg_key env_key : string) :
  present (credential m p cfg_key env_key) ->
  credential m p cfg_key env_key
  = Some (credential_or_empty m p cfg_key env_key)
  /\ credential_or_empty m p cfg_key env_key <> "".
Proof.
  intros (v & Hv & Hne). rewrite credential_or_empty_credential, Hv.
  simpl. tauto.
Qed.

(** X12. The credentials the constructor receives are the credentials the
    check looked at: when [_has_remote_config] holds, the bucket name, the
    access key, the secret key and the endpoint handed to
    [RemoteStorageBackend] are non-empty and are the values the check
    resolved (config first, then environment). *)
Theorem remote_backend_checked_credentials (m : StorageManager) (p : Process) :
  _has_remote_config m p = true ->
  exists bucket key secret endpoint : string,
    remote_backend_of m p
    = RemoteStorageBackend bucket key secret endpoint
        (credential_or_empty m p "region" "S3_REGION")
        (enable_txt m) (enable_html m) (timezone m)
    /\ credential m p "bucket_name" "S3_BUCKET_NAME" = Some bucket
    /\ credential m p "access_key_id" "S3_ACCESS_KEY_ID" = Some key
    /\ credential m p "secret_access_key" "S3_SECRET_ACCESS_KEY" = Some secret
    /\ credential m p "endpoint_url" "S3_ENDPOINT_URL" = Some endpoint
    /\ bucket <> "" /\ key <> "" /\ secret <> "" /\ endpoint <> "".
Proof.
  intros Hcfg. unfold _has_remote_config in Hcfg.
  rewrite !truthy_opt_and, !andb_true_iff, !truthy_opt_present in Hcfg.
  destruct Hcfg as [[[Hb Hk] Hs] He].
  apply present_credential_or_empty in Hb as [Hb Hb'].
  apply present_credential_or_empty in Hk as [Hk Hk'].
  apply present_credential_or_empty in Hs as [Hs Hs'].
  apply present_credential_or_empty in He as [He He'].
  eexists _, _, _, _. split; [reflexivity|]. tauto.
Qed.

Lemma remote_backend_checked_credentials_witness :
  exists bucket key secret endpoint : string,
    remote_backend_of (manager "auto" bucket_in_config 0 0)
      (ci_process (fun _ => None))
    = RemoteStorageBackend bucket key secret endpoint
        (credential_or_empty (manager "auto" bucket_in_config 0 0)
           (ci_process (fun _ => None)) "region" "S3_REGION")
        true true "America/New_York"
    /\ credential (manager "auto" bucket_in_config 0 0)
         (ci_process (fun _ => None)) "bucket_name" "S3_BUCKET_NAME"
       = Some bucket
    /\ credential (manager "auto" bucket_in_config 0 0)
         (ci_process (fun _ => None)) "access_key_id" "S3_ACCESS_KEY_ID"
       = Some key
    /\ credential (manager "auto" bucket_in_config 0 0)
         (ci_process (fun _ => None))
         "secret_access_key" "S3_SECRET_ACCESS_KEY" = Some secret
    /\ credential (manager "auto" bucket_in_config 0 0)
         (ci_process (fun _ => None)) "endpoint_url" "S3_ENDPOINT_URL"
       = Some endpoint
    /\ bucket <> "" /\ key <> "" /\ secret <> "" /\ endpoint <> "".
Proof.
  apply (remote_backend_checked_credentials
           (manager "auto" bucket_in_config 0 0) (ci_process (fun _ => None))).
  reflexivity.
Defined.

(** X13. [pull_from_remote] is a no-op answering 0, and builds no backend,
    when pulling is disabled, when the number of days is not positive, or
    when the remote store is not configured; it also answers 0 when the
    remote backend cannot be built; and it never touches the manager's
    active backend. *)
Theorem pull_from_remote_noop
    (pull_recent_days : StorageBackend -> Z -> string -> Z)
    (m : StorageManager) (p : Process) :
  (pull_enabled m = false \/ (pull_days m <= 0)%Z
   \/ _has_remote_config m p = false ->
   pull_from_remote pull_recent_days m p = (0%Z, m))
  /\ (_remote_backend m = None ->
      remote_failure p (remote_backend_of m p) <> None ->
      (pull_from_remote pull_recent_days m p).1 = 0%Z)
  /\ _backend (pull_from_remote pull_recent_days m p).2 = _backend m.
Proof.
  unfold pull_from_remote. split; [|split].
  - intros [H|[H|H]].
    + now rewrite H.
    + apply Z.leb_le in H. rewrite H, orb_true_r. reflexivity.
    + rewrite H. simpl. now destruct (negb (pull_enabled m) || _).
  - intros Hnone Hfail.
    destruct (negb (pull_enabled m) || _); [reflexivity|].
    destruct (negb (_has_remote_config m p)); [reflexivity|].
    rewrite Hnone. unfold _create_remote_backend, construct_remote.
    destruct (remote_failure p (remote_backend_of m p)) as [[]|];
      [reflexivity .. | congruence].
  - destruct (negb (pull_enabled m) || _); [reflexivity|].
    destruct (negb (_has_remote_config m p)); [reflexivity|].
    destruct (_remote_backend m) eqn:E; simpl.
    + rewrite E. reflexivity.
    + destruct (_create_remote_backend m p); reflexivity.
Qed.

Definition pulling_manager (pull_days : Z) : StorageManager :=
  {| backend_type := "local"; data_dir := "output";
     enable_txt := true; enable_html := true;
     remote_config := full_config;
     local_retention_days := 0; remote_retention_days := 0;
     pull_enabled := true; pull_days := pull_days;
     timezone := "America/New_York";
     _backend := None; _remote_backend := None |}.

Lemma pull_from_remote_noop_witness :
  pull_from_remote (fun _ days _ => days) (pulling_manager 0)
    (ci_process (fun _ => None)) = (0%Z, pulling_manager 0)
  /\ (pull_from_remote (fun _ days _ => days) (pulling_manager 3)
        (ci_process (fun _ => Some ImportError))).1 = 0%Z.
Proof.
  split.
  - apply (pull_from_remote_noop (fun _ days _ => days) (pulling_manager 0)
             (ci_process (fun _ => None))).
    right. left. simpl. lia.
  - apply (pull_from_remote_noop (fun _ days _ => days) (pulling_manager 3)
             (ci_process (fun _ => Some ImportError)));
      [reflexivity | discriminate].
Defined.

Example pull_from_remote_pulls :
  pull_from_remote (fun _ days _ => days) (pulling_manager 3)
    (ci_process (fun _ => None))
  = (3%Z,
     set_remote_backend (pulling_manager 3)
       (Some (remote_backend_of (pulling_manager 3)
                (ci_process (fun _ => None))))).
Proof. reflexivity. Qed.

(** ** Retention cleanup as a sequence of sweeps *)

(** The sweeps [cleanup_old_data] performs: the backend each one goes to
    and the retention it uses. *)
Definition cleanup_plan (m : StorageManager) (p : Process)
  : list (StorageBackend * Z) :=
  (if (0 <? local_retention_days m)%Z
   then [((get_backend m p).1, local_retention_days m)] else [])
  ++ (if (0 <? remote_retention_days m)%Z && _has_remote_config m p then
        match _remote_backend m with
        | Some rb => [(rb, remote_retention_days m)]
        | None =>
            match _create_remote_backend m p with
            | Some rb => [(rb, remote_retention_days m)]
            | None => []
            end
        end
      else []).

Fixpoint apply_plan (today : Z) (plan : list (StorageBackend * Z))
    (s : Buckets) : Z * Buckets :=
  match plan with
  | [] => (0%Z, s)
  | (b, r) :: rest =>
      let '(n, s1) := backend_cleanup_old_data today b r s in
      let '(n', s2) := apply_plan today rest s1 in
      ((n + n')%Z, s2)
  end.

Lemma create_remote_backend_get_backend (m : StorageManager) (p : Process) :
  _create_remote_backend (get_backend m p).2 p = _create_remote_backend m p.
Proof.
  destruct (get_backend_retention m p) as (_ & _ & _ & _ & Hrbo).
  unfold _create_remote_backend, construct_remote. now rewrite Hrbo.
Qed.

Lemma has_remote_config_get_backend (m : StorageManager) (p : Process) :
  _has_remote_config (get_backend m p).2 p = _has_remote_config m p.
Proof.
  destruct (get_backend_retention m p) as (_ & _ & _ & Hc & _).
  unfold _has_remote_config, credential. now rewrite Hc.
Qed.

(** [cleanup_old_data] performs its plan and reports what the plan
    deleted. *)
Lemma cleanup_old_data_plan (today : Z) (m : StorageManager) (p : Process)
    (s : Buckets) :
  ((cleanup_old_data today m p s).1.1, (cleanup_old_data today m p s).2)
  = apply_plan today (cleanup_plan m p) s.
Proof.
  unfold cleanup_old_data, cleanup_plan.
  destruct (get_backend_retention m p) as (Hl & Hr & Hb & _ & _).
  pose proof (create_remote_backend_get_backend m p) as Hcreate.
  pose proof (has_remote_config_get_backend m p) as Hcfg.
  destruct (0 <? local_retention_days m)%Z.
  - destruct (get_backend m p) as [b m'] eqn:Eg. cbn [fst snd] in *.
    rewrite Hl. simpl app. cbn [apply_plan].
    destruct (backend_cleanup_old_data today b (local_retention_days m) s)
      as [n s1].
    rewrite Hr, Hcfg, Hb.
    destruct ((0 <? remote_retention_days m)%Z && _has_remote_config m p);
      [|simpl; f_equal; lia].
    destruct (_remote_backend m) as [rb|] eqn:Erb.
    + rewrite Hb. simpl. rewrite Hr.
      destruct (backend_cleanup_old_data today rb
                  (remote_retention_days m) s1) as [n' s2].
      simpl. f_equal. lia.
    + rewrite Hcreate.
      destruct (_create_remote_backend m p) as [rb|]; simpl.
      * rewrite Hr.
        destruct (backend_cleanup_old_data today rb
                    (remote_retention_days m) s1) as [n' s2].
        simpl. f_equal. lia.
      * f_equal. lia.
  - simpl app.
    destruct ((0 <? remote_retention_days m)%Z && _has_remote_config m p);
      [|reflexivity].
    destruct (_remote_backend m) as [rb|] eqn:Erb.
    + rewrite Erb. simpl.
      destruct (backend_cleanup_old_data today rb
                  (remote_retention_days m) s) as [n' s2].
      simpl. f_equal. lia.
    + destruct (_create_remote_backend m p) as [rb|]; simpl; [|reflexivity].
      destruct (backend_cleanup_old_data today rb
                  (remote_retention_days m) s) as [n' s2].
      simpl. f_equal. lia.
Qed.

(** The number of day-buckets in the two stores. *)
Definition bucket_count (s : Buckets) : Z :=
  Z.of_nat (length (local_buckets s) + length (remote_buckets s)).

(** A bucket the given retention does not let go. *)
Definition retained (today retention_days day : Z) : Prop :=
  expired today retention_days day = false.

Lemma sweep_count (today retention_days : Z) (days : list Z) :
  ((sweep today retention_days days).1
   + Z.of_nat (length (sweep today retention_days days).2))%Z
  = Z.of_nat (length days).
Proof.
  unfold sweep. cbn [fst snd].
  induction days as [|d days IH]; [reflexivity|].
  destruct (expired today retention_days d) eqn:E.
  - rewrite filter_cons_True by assumption.
    rewrite (filter_cons_False (fun d => expired _ _ d = false))
      by congruence.
    simpl length. lia.
  - rewrite filter_cons_False by congruence.
    rewrite (filter_cons_True (fun d => expired _ _ d = false))
      by assumption.
    simpl length. lia.
Qed.

Lemma sweep_kept (today retention_days : Z) (days : list Z) (d : Z) :
  d ∈ (sweep today retention_days days).2
  <-> d ∈ days /\ retained today retention_days d.
Proof. unfold sweep, retained. cbn [snd]. rewrite list_elem_of_filter. tauto. Qed.

Lemma sweep_retained (today retention_days : Z) (days : list Z) :
  Forall (retained today retention_days) days ->
  sweep today retention_days days = (0%Z, days).
Proof.
  unfold sweep, retained. intros Hall.
  induction Hall as [|d days Hd Hall IH]; [reflexivity|].
  rewrite filter_cons_False by congruence.
  rewrite (filter_cons_True (fun d => expired _ _ d = false)) by assumption.
  injection IH as IH1 IH2. rewrite IH1. f_equal. f_equal. exact IH2.
Qed.

(** The store a backend cleans. *)
Definition store_of (b : StorageBackend) (s : Buckets) : list Z :=
  if is_remote b then remote_buckets s else local_buckets s.

Lemma backend_cleanup_count (today : Z) (b : StorageBackend) (r : Z)
    (s : Buckets) :
  ((backend_cleanup_old_data today b r s).1
   + bucket_count (backend_cleanup_old_data today b r s).2)%Z
  = bucket_count s.
Proof.
  unfold backend_cleanup_old_data, bucket_count.
  destruct (is_remote b).
  - pose proof (sweep_count today r (remote_buckets s)) as H.
    destruct (sweep today r (remote_buckets s)) as [n kept]. simpl in *. lia.
  - pose proof (sweep_count today r (local_buckets s)) as H.
    destruct (sweep today r (local_buckets s)) as [n kept]. simpl in *. lia.
Qed.

Lemma backend_cleanup_local (today : Z) (b : StorageBackend) (r : Z)
    (s : Buckets) (d : Z) :
  (d ∈ local_buckets (backend_cleanup_old_data today b r s).2 ->
   d ∈ local_buckets s)
  /\ (d ∈ local_buckets s -> retained today r d ->
      d ∈ local_buckets (backend_cleanup_old_data today b r s).2).
Proof.
  unfold backend_cleanup_old_data. destruct (is_remote b).
  - destruct (sweep today r (remote_buckets s)) as [n kept]. simpl. tauto.
  - pose proof (sweep_kept today r (local_buckets s) d) as H.
    destruct (sweep today r (local_buckets s)) as [n kept]. simpl in *. tauto.
Qed.

Lemma backend_cleanup_remote (today : Z) (b : StorageBackend) (r : Z)
    (s : Buckets) (d : Z) :
  (d ∈ remote_buckets (backend_cleanup_old_data today b r s).2 ->
   d ∈ remote_buckets s)
  /\ (d ∈ remote_buckets s -> retained today r d ->
      d ∈ remote_buckets (backend_cleanup_old_data today b r s).2).
Proof.
  unfold backend_cleanup_old_data. destruct (is_remote b).
  - pose proof (sweep_kept today r (remote_buckets s) d) as H.
    destruct (sweep today r (remote_buckets s)) as [n kept]. simpl in *. tauto.
  - destruct (sweep today r (local_buckets s)) as [n kept]. simpl. tauto.
Qed.

Lemma apply_plan_count (today : Z) (plan : list (StorageBackend * Z))
    (s : Buckets) :
  ((apply_plan today plan s).1 + bucket_count (apply_plan today plan s).2)%Z
  = bucket_count s.
Proof.
  revert s. induction plan as [|[b r] plan IH]; intros s; simpl; [lia|].
  pose proof (backend_cleanup_count today b r s) as Hb.
  destruct (backend_cleanup_old_data today b r s) as [n s1].
  specialize (IH s1). destruct (apply_plan today plan s1) as [n' s2].
  simpl in *. lia.
Qed.

(** The retentions a plan uses are positive and are the manager's. *)
Lemma cleanup_plan_retentions (m : StorageManager) (p : Process) :
  Forall (fun br => (0 < br.2)%Z
                    /\ (br.2 = local_retention_days m
                        \/ br.2 = remote_retention_days m))
    (cleanup_plan m p).
Proof.
  unfold cleanup_plan. apply Forall_app. split.
  - destruct (0 <? local_retention_days m)%Z eqn:E; [|constructor].
    apply Z.ltb_lt in E. repeat constructor; simpl; tauto.
  - destruct (0 <? remote_retention_days m)%Z eqn:E; simpl; [|constructor].
    apply Z.ltb_lt in E.
    destruct (_has_remote_config m p); [|constructor].
    destruct (_remote_backend m); [repeat constructor; simpl; tauto|].
    destruct (_create_remote_backend m p); repeat constructor; simpl; tauto.
Qed.

Lemma apply_plan_members (today : Z) (plan : list (StorageBackend * Z))
    (s : Buckets) (d : Z) :
  ((d ∈ local_buckets (apply_plan today plan s).2 -> d ∈ local_buckets s)
   /\ (d ∈ remote_buckets (apply_plan today plan s).2 ->
       d ∈ remote_buckets s))
  /\ (Forall (fun br => retained today br.2 d) plan ->
      (d ∈ local_buckets s -> d ∈ local_buckets (apply_plan today plan s).2)
      /\ (d ∈ remote_buckets s ->
          d ∈ remote_buckets (apply_plan today plan s).2)).
Proof.
  revert s. induction plan as [|[b r] plan IH]; intros s; simpl; [tauto|].
  pose proof (backend_cleanup_local today b r s d) as Hl.
  pose proof (backend_cleanup_remote today b r s d) as Hr.
  destruct (backend_cleanup_old_data today b r s) as [n s1].
  specialize (IH s1). destruct (apply_plan today plan s1) as [n' s2].
  simpl in *. split; [tauto|].
  intros Hall. apply Forall_cons in Hall as [Hd Hall]. simpl in Hd. tauto.
Qed.

(** X14. The count [cleanup_old_data] returns is the number of day-buckets
    that are gone: the buckets of the two stores before the call are those
    left after it plus the count, on every path through the function. *)
Theorem cleanup_old_data_count (today : Z) (m : StorageManager) (p : Process)
    (s : Buckets) :
  ((cleanup_old_data today m p s).1.1
   + bucket_count (cleanup_old_data today m p s).2)%Z
  = bucket_count s.
Proof.
  pose proof (cleanup_old_data_plan today m p s) as Hplan.
  pose proof (apply_plan_count today (cleanup_plan m p) s) as Hcount.
  rewrite <- Hplan in Hcount. exact Hcount.
Qed.

(** X15. [cleanup_old_data] adds no bucket to either store, and a bucket
    that neither the local nor the remote retention lets go stays in the
    store it is in, whichever backend is active. *)
Theorem cleanup_old_data_keeps_recent (today : Z) (m : StorageManager)
    (p : Process) (s : Buckets) (d : Z) :
  (d ∈ local_buckets (cleanup_old_data today m p s).2 -> d ∈ local_buckets s)
  /\ (d ∈ remote_buckets (cleanup_old_data today m p s).2 ->
      d ∈ remote_buckets s)
  /\ (retained today (local_retention_days m) d ->
      retained today (remote_retention_days m) d ->
      (d ∈ local_buckets s ->
       d ∈ local_buckets (cleanup_old_data today m p s).2)
      /\ (d ∈ remote_buckets s ->
          d ∈ remote_buckets (cleanup_old_data today m p s).2)).
Proof.
  pose proof (cleanup_old_data_plan today m p s) as Hplan.
  pose proof (apply_plan_members today (cleanup_plan m p) s d) as Hmem.
  rewrite <- Hplan in Hmem. cbn [snd] in Hmem.
  destruct Hmem as [[Hl Hr] Hkeep]. split; [exact Hl|]. split; [exact Hr|].
  intros Hdl Hdr. apply Hkeep.
  eapply Forall_impl; [apply cleanup_plan_retentions|].
  intros [b r] [_ [-> | ->]]; assumption.
Qed.

Lemma cleanup_old_data_keeps_recent_witness :
  98%Z ∈ remote_buckets
    (cleanup_old_data 100 remote_active (ci_process (fun _ => None))
       {| local_buckets := [70; 98]%Z; remote_buckets := [70; 98]%Z |}).2.
Proof.
  apply (cleanup_old_data_keeps_recent 100 remote_active
           (ci_process (fun _ => None))
           {| local_buckets := [70; 98]%Z; remote_buckets := [70; 98]%Z |} 98);
    [reflexivity | reflexivity |].
  simpl. apply elem_of_cons. right. apply elem_of_cons. now left.
Defined.

(** X16. With neither retention positive, [cleanup_old_data] deletes
    nothing, answers 0 and builds no backend: the manager and both stores
    are as before. *)
Theorem cleanup_old_data_unlimited (today : Z) (m : StorageManager)
    (p : Process) (s : Buckets) :
  (local_retention_days m <= 0)%Z -> (remote_retention_days m <= 0)%Z ->
  cleanup_old_data today m p s = (0%Z, m, s).
Proof.
  intros Hl Hr. unfold cleanup_old_data.
  apply Z.ltb_ge in Hl, Hr. now rewrite Hl, Hr.
Qed.

Lemma cleanup_old_data_unlimited_witness :
  cleanup_old_data 100 remote_manager (ci_process (fun _ => None)) month_old
  = (0%Z, remote_manager, month_old).
Proof.
  apply (cleanup_old_data_unlimited 100 remote_manager
           (ci_process (fun _ => None)) month_old); simpl; lia.
Defined.

(** ** Cleaning twice *)

Lemma store_retained_after (today : Z) (b : StorageBackend) (r : Z)
    (s : Buckets) :
  Forall (retained today r)
    (store_of b (backend_cleanup_old_data today b r s).2).
Proof.
  apply Forall_forall. intros d. unfold store_of.
  destruct (is_remote b) eqn:E.
  - unfold backend_cleanup_old_data. rewrite E.
    pose proof (sweep_kept today r (remote_buckets s) d) as H.
    destruct (sweep today r (remote_buckets s)) as [n kept]. simpl in *. tauto.
  - unfold backend_cleanup_old_data. rewrite E.
    pose proof (sweep_kept today r (local_buckets s) d) as H.
    destruct (sweep today r (local_buckets s)) as [n kept]. simpl in *. tauto.
Qed.

Lemma apply_plan_preserves (today : Z) (plan : list (StorageBackend * Z))
    (s : Buckets) (b : StorageBackend) (P : Z -> Prop) :
  Forall P (store_of b s) ->
  Forall P (store_of b (apply_plan today plan s).2).
Proof.
  rewrite !Forall_forall. intros Hall d Hd. apply Hall.
  destruct (apply_plan_members today plan s d) as [[Hl Hr] _].
  unfold store_of in *. destruct (is_remote b); auto.
Qed.

Lemma backend_cleanup_retained (today : Z) (b : StorageBackend) (r : Z)
    (s : Buckets) :
  Forall (retained today r) (store_of b s) ->
  backend_cleanup_old_data today b r s = (0%Z, s).
Proof.
  unfold store_of, backend_cleanup_old_data. intros Hall.
  destruct (is_remote b); rewrite (sweep_retained _ _ _ Hall);
    destruct s; reflexivity.
Qed.

(** A plan performed a second time finds nothing to delete. *)
Lemma apply_plan_again (today : Z) (plan : list (StorageBackend * Z))
    (s : Buckets) :
  apply_plan today plan (apply_plan today plan s).2
  = (0%Z, (apply_plan today plan s).2).
Proof.
  revert s. induction plan as [|[b r] plan IH]; intros s; [reflexivity|].
  cbn [apply_plan].
  pose proof (store_retained_after today b r s) as Hret.
  destruct (backend_cleanup_old_data today b r s) as [n s1]. cbn [snd] in Hret.
  specialize (IH s1).
  pose proof (apply_plan_preserves today plan s1 b _ Hret) as Hret2.
  destruct (apply_plan today plan s1) as [n' s2]. cbn [snd] in *.
  rewrite (backend_cleanup_retained today b r s2 Hret2), IH. reflexivity.
Qed.

Lemma set_remote_backend_fields (m : StorageManager)
    (o : option StorageBackend) :
  local_retention_days (set_remote_backend m o) = local_retention_days m
  /\ remote_retention_days (set_remote_backend m o) = remote_retention_days m
  /\ _remote_backend (set_remote_backend m o) = o.
Proof. repeat split. Qed.

(** The manager [cleanup_old_data] leaves plans the same sweeps. *)
Lemma cleanup_plan_after (today : Z) (m : StorageManager) (p : Process)
    (s : Buckets) :
  cleanup_plan (cleanup_old_data today m p s).1.2 p = cleanup_plan m p.
Proof.
  unfold cleanup_old_data, cleanup_plan.
  destruct (get_backend_retention m p) as (Hl & Hr & Hb & Hc & Hrbo).
  pose proof (create_remote_backend_get_backend m p) as Hcreate.
  pose proof (has_remote_config_get_backend m p) as Hcfg.
  pose proof (get_backend_stable m p p) as Hstable.
  assert (forall (m0 : StorageManager) (o : option StorageBackend),
             get_backend (set_remote_backend m0 o) p
             = ((get_backend m0 p).1,
                set_remote_backend (get_backend m0 p).2 o)
             /\ _has_remote_config (set_remote_backend m0 o) p
                = _has_remote_config m0 p
             /\ _create_remote_backend (set_remote_backend m0 o) p
                = _create_remote_backend m0 p) as Hset.
  { intros m0 o. split; [|split; reflexivity].
    unfold get_backend. simpl. destruct (_backend m0); [reflexivity|].
    change (_resolve_backend_type (set_remote_backend m0 o) p)
      with (_resolve_backend_type m0 p).
    change (_create_remote_backend (set_remote_backend m0 o) p)
      with (_create_remote_backend m0 p).
    destruct (String.eqb (_resolve_backend_type m0 p) "remote").
    - destruct (_create_remote_backend m0 p); [|reflexivity].
      destruct (String.eqb (_resolve_backend_type m0 p) "local");
        reflexivity.
    - reflexivity. }
  destruct (0 <? local_retention_days m)%Z eqn:El.
  - destruct (get_backend m p) as [b m'] eqn:Eg. cbn [fst snd] in *.
    destruct (backend_cleanup_old_data today b (local_retention_days m') s)
      as [n s1].
    rewrite Hr, Hcfg.
    destruct ((0 <? remote_retention_days m)%Z && _has_remote_config m p)
      eqn:Ec.
    + rewrite Hb.
      destruct (_remote_backend m) as [rb|] eqn:Erb.
      * rewrite Hb. cbn [_remote_backend].
        destruct (backend_cleanup_old_data today rb _ s1) as [n' s2].
        cbn [fst snd]. rewrite Hl, El, Hr, Hcfg, Ec, Hb, Hstable.
        reflexivity.
      * rewrite Hcreate.
        destruct (_create_remote_backend m p) as [rb|] eqn:Ecr;
          rewrite (proj2 (proj2 (set_remote_backend_fields _ _))).
        -- destruct (backend_cleanup_old_data today rb _ s1) as [n' s2].
           cbn [fst snd].
           destruct (set_remote_backend_fields m' (Some rb)) as (-> & -> & ->).
           rewrite Hl, El, Hr.
           destruct (Hset m' (Some rb)) as (Hg & Hh & _).
           rewrite Hg, Hh, Hstable, Hcfg, Ec. reflexivity.
        -- cbn [fst snd].
           destruct (set_remote_backend_fields m' None) as (-> & -> & ->).
           rewrite Hl, El, Hr.
           destruct (Hset m' None) as (Hg & Hh & Hk).
           rewrite Hg, Hh, Hk, Hstable, Hcfg, Ec, Hcreate. reflexivity.
    + cbn [fst snd]. rewrite Hl, El, Hr, Hcfg, Ec, Hstable. reflexivity.
  - destruct ((0 <? remote_retention_days m)%Z && _has_remote_config m p)
      eqn:Ec.
    + destruct (_remote_backend m) as [rb|] eqn:Erb.
      * rewrite Erb.
        destruct (backend_cleanup_old_data today rb _ s) as [n' s2].
        cbn [fst snd]. rewrite El, Ec, Erb. reflexivity.
      * destruct (_create_remote_backend m p) as [rb|] eqn:Ecr;
          rewrite (proj2 (proj2 (set_remote_backend_fields _ _))).
        -- destruct (backend_cleanup_old_data today rb _ s) as [n' s2].
           cbn [fst snd].
           destruct (set_remote_backend_fields m (Some rb)) as (-> & -> & ->).
           rewrite El.
           destruct (Hset m (Some rb)) as (_ & Hh & _). rewrite Hh, Ec.
           reflexivity.
        -- cbn [fst snd].
           destruct (set_remote_backend_fields m None) as (-> & -> & ->).
           rewrite El.
           destruct (Hset m None) as (_ & Hh & Hk). rewrite Hh, Hk, Ec, Ecr.
           reflexivity.
    + cbn [fst snd]. rewrite El, Ec. reflexivity.
Qed.

(** X17. Cleaning is idempotent: a second [cleanup_old_data] on the same
    day, on the manager and the stores the first one left, deletes nothing
    and answers 0. *)
Theorem cleanup_old_data_twice (today : Z) (m : StorageManager) (p : Process)
    (s : Buckets) :
  let first := cleanup_old_data today m p s in
  let second := cleanup_old_data today first.1.2 p first.2 in
  second.1.1 = 0%Z /\ second.2 = first.2.
Proof.
  cbv zeta.
  pose proof (cleanup_old_data_plan today m p s) as H1.
  pose proof (cleanup_old_data_plan today
                (cleanup_old_data today m p s).1.2 p
                (cleanup_old_data today m p s).2) as H2.
  rewrite cleanup_plan_after in H2.
  assert ((cleanup_old_data today m p s).2
          = (apply_plan today (cleanup_plan m p) s).2) as Hs
    by now rewrite <- H1.
  rewrite Hs in H2 at 3. rewrite apply_plan_again in H2.
  injection H2 as Ht Ha. rewrite Ht, Ha. now rewrite Hs.
Qed.

Example cleanup_old_data_twice_both :
  let first :=
    cleanup_old_data 100 (manager "remote" bucket_in_config 7 60)
      (ci_process (fun _ => None))
      {| local_buckets := [70; 95]%Z; remote_buckets := [30; 70; 95]%Z |} in
  first.1.1 = 2%Z /\ remote_buckets first.2 = [95%Z]
  /\ (cleanup_old_data 100 first.1.2 (ci_process (fun _ => None)) first.2).1.1
     = 0%Z.
Proof. vm_compute. repeat split. Qed.

(** ** The singleton *)

(** The module-level reference, when set, refers to an object. *)
Definition well_formed (w : ModuleState) : Prop :=
  forall r, _storage_manager w = Some r -> r < length (objects w).

(** The references a sequence of calls without [force_new] returns, and
    the module state after them. *)
Fixpoint later_calls (w : ModuleState) (calls : list ManagerArgs)
  : list nat * ModuleState :=
  match calls with
  | [] => ([], w)
  | a :: rest =>
      let '(r, w1) := get_storage_manager w a false in
      let '(rs, w2) := later_calls w1 rest in
      (r :: rs, w2)
  end.

Lemma get_storage_manager_sets (w : ModuleState) (a : ManagerArgs)
    (force_new : bool) :
  _storage_manager (get_storage_manager w a force_new).2
  = Some (get_storage_manager w a force_new).1.
Proof.
  unfold get_storage_manager.
  destruct (_storage_manager w) as [r|] eqn:E; [destruct force_new|];
    simpl; auto.
Qed.

Lemma later_calls_same (w : ModuleState) (r : nat) (calls : list ManagerArgs) :
  _storage_manager w = Some r ->
  later_calls w calls = (map (fun _ => r) calls, w).
Proof.
  intros Hr. induction calls as [|a calls IH]; [reflexivity|].
  simpl. unfold get_storage_manager. rewrite Hr, IH. reflexivity.
Qed.

(** X18. [get_storage_manager] is a singleton: once a call has returned a
    manager, every later call without [force_new] returns that same
    manager and changes nothing, whatever arguments it is given; a call
    with [force_new], or the first call, returns a manager newly built from
    its own arguments. *)
Theorem get_storage_manager_singleton (w : ModuleState) (a : ManagerArgs)
    (force_new : bool) (calls : list ManagerArgs) :
  let first := get_storage_manager w a force_new in
  later_calls first.2 calls = (map (fun _ => first.1) calls, first.2)
  /\ (_storage_manager w = None \/ force_new = true ->
      objects first.2 !! first.1 = Some (__init__ a)).
Proof.
  cbv zeta. split.
  - apply later_calls_same, get_storage_manager_sets.
  - unfold get_storage_manager. intros Hnew.
    destruct (_storage_manager w) as [r|] eqn:E.
    + destruct Hnew as [Hn | ->]; [discriminate|]. simpl.
      rewrite lookup_app_r by lia. now rewrite Nat.sub_diag.
    + simpl. rewrite lookup_app_r by lia. now rewrite Nat.sub_diag.
Qed.

Definition no_manager : ModuleState :=
  {| objects := []; _storage_manager := None |}.

Definition local_args (data_dir : string) : ManagerArgs :=
  {| arg_backend_type := "local"; arg_data_dir := data_dir;
     arg_enable_txt := true; arg_enable_html := true;
     arg_remote_config := None;
     arg_local_retention_days := 0; arg_remote_retention_days := 0;
     arg_pull_enabled := false; arg_pull_days := 0;
     arg_timezone := "America/New_York" |}.

Lemma get_storage_manager_singleton_witness :
  objects (get_storage_manager no_manager (local_args "output") false).2
    !! (get_storage_manager no_manager (local_args "output") false).1
  = Some (__init__ (local_args "output"))
  /\ (later_calls
        (get_storage_manager no_manager (local_args "output") false).2
        [local_args "elsewhere"]).1
     = [0].
Proof.
  destruct (get_storage_manager_singleton no_manager (local_args "output")
              false [local_args "elsewhere"]) as [Hlater Hnew].
  split.
  - apply Hnew. left. reflexivity.
  - rewrite Hlater. reflexivity.
Defined.

(** X19. The process shares one backend: a backend obtained through the
    manager a first [get_storage_manager] returned is the backend obtained
    through the manager any later call without [force_new] returns, also
    when that call names another backend type or the environment has
    changed. *)
Theorem shared_backend (w : ModuleState) (a a' : ManagerArgs)
    (force_new : bool) (p p' : Process) :
  well_formed w ->
  let first := get_storage_manager w a force_new in
  let used := call_get_backend first.2 first.1 p in
  let second := get_storage_manager used.2 a' false in
  let again := call_get_backend second.2 second.1 p' in
  second.1 = first.1
  /\ (exists b, used.1 = Some b /\ again.1 = Some b)
  /\ again.2 = used.2.
Proof.
  intros Hwf. cbv zeta.
  pose proof (get_storage_manager_sets w a force_new) as Hset.
  assert ((get_storage_manager w a force_new).1
          < length (objects (get_storage_manager w a force_new).2)) as Hlt.
  { unfold get_storage_manager.
    destruct (_storage_manager w) as [r|] eqn:E; [destruct force_new|];
      simpl; rewrite ?length_app; simpl; try lia.
    now apply Hwf. }
  destruct (get_storage_manager w a force_new) as [r0 w0]. cbn [fst snd] in *.
  destruct (lookup_lt_is_Some_2 (objects w0) r0 Hlt) as [m Hm].
  pose proof (get_backend_stable m p p') as Hstable.
  destruct (get_backend m p) as [b m'] eqn:Eg. cbn [fst snd] in *.
  assert (call_get_backend w0 r0 p
          = (Some b, {| objects := <[r0 := m']> (objects w0);
                        _storage_manager := Some r0 |})) as Hused.
  { unfold call_get_backend. now rewrite Hm, Eg, Hset. }
  rewrite Hused. cbn [fst snd].
  unfold get_storage_manager. cbn [_storage_manager fst snd].
  split; [reflexivity|].
  unfold call_get_backend. cbn [objects _storage_manager].
  rewrite list_lookup_insert_eq by assumption. rewrite Hstable.
  cbn [fst snd]. split; [now exists b|].
  now rewrite list_insert_insert_eq.
Qed.

Definition auto_args : ManagerArgs :=
  {| arg_backend_type := "auto"; arg_data_dir := "output";
     arg_enable_txt := true; arg_enable_html := true;
     arg_remote_config := Some full_config;
     arg_local_retention_days := 0; arg_remote_retention_days := 0;
     arg_pull_enabled := false; arg_pull_days := 0;
     arg_timezone := "America/New_York" |}.

Lemma shared_backend_witness :
  exists b,
    (call_get_backend
       (get_storage_manager no_manager (local_args "output") false).2
       (get_storage_manager no_manager (local_args "output") false).1
       (ci_process (fun _ => None))).1 = Some b
    /\ (call_get_backend
          (get_storage_manager
             (call_get_backend
                (get_storage_manager no_manager (local_args "output") false).2
                (get_storage_manager no_manager (local_args "output") false).1
                (ci_process (fun _ => None))).2
             auto_args false).2
          (get_storage_manager
             (call_get_backend
                (get_storage_manager no_manager (local_args "output") false).2
                (get_storage_manager no_manager (local_args "output") false).1
                (ci_process (fun _ => None))).2
             auto_args false).1
          (ci_process (fun _ => None))).1 = Some b.
Proof.
  apply (shared_backend no_manager (local_args "output") auto_args false
           (ci_process (fun _ => None)) (ci_process (fun _ => None))).
  intros r Hr. discriminate Hr.
Defined.

End StorageOpsFacts.

(* ===================================================================== *)
(** * __main__.py: what a notification and a run do                       *)
(* ===================================================================== *)

Module RunFacts.

Import Py Main PyFacts MainFacts.

(** ** One call of [_send_notification_if_needed] *)

Lemma add_events_neq (st : State) (records : list string) (ev : Event)
    (evs : list Event) :
  add_events st records (ev :: evs) <> st.
Proof.
  intros H. apply (f_equal (fun s => length (trace s))) in H.
  unfold add_events in H. simpl in H. rewrite length_app in H. simpl in H. lia.
Qed.

(** X20. [_send_notification_if_needed] reaches the dispatcher exactly when
    every gate is open: notifications enabled, a channel configured, the
    content gate passed, and, with the push window enabled, the time inside
    the window and (in once-per-day mode) no push on record.  With any gate
    closed it answers False and leaves the state untouched; with all open
    the dispatch is the next event of the trace. *)
Theorem send_notification_gates (c : Context) (stats : list Stat)
    (report_type mode : string)
    (new_titles : option (gmap string (list string))) (st : State) :
  let sent :=
    _send_notification_if_needed c stats report_type mode new_titles st in
  (worth_sending c stats new_titles && window_admits c st = false ->
   sent = (Ok false, st))
  /\ (worth_sending c stats new_titles && window_admits c st = true ->
      exists tail, trace sent.2
                   = trace st ++ EvDispatch report_type mode :: tail)
  /\ (sent.2 <> st <->
      worth_sending c stats new_titles && window_admits c st = true).
Proof.
  cbv zeta. rewrite send_notification_exact.
  destruct (worth_sending c stats new_titles && window_admits c st).
  - cbv zeta. split; [discriminate|].
    destruct (bool_decide _); [|destruct (_ && _ && _)]; simpl.
    all: split; [eexists; reflexivity|].
    all: split; [reflexivity|intros _; apply add_events_neq].
  - split; [reflexivity|]. split; [discriminate|].
    split; [intros H; now exfalso | discriminate].
Qed.

Definition open_context : Context :=
  sample_context (sample_config "incremental" true true) 600 day_of_P1
    fresh_titles.

Lemma send_notification_gates_witness :
  _send_notification_if_needed open_context [matched_stat]
    "Real-time Incremental" "incremental" (Some stale_titles)
    (initial_state [])
  = (Ok false, initial_state [])
  /\ exists tail,
       trace (_send_notification_if_needed open_context [matched_stat]
                "Real-time Incremental" "incremental" (Some fresh_titles)
                (initial_state [])).2
       = trace (initial_state [])
         ++ EvDispatch "Real-time Incremental" "incremental" :: tail.
Proof.
  split.
  - apply (send_notification_gates open_context [matched_stat]
             "Real-time Incremental" "incremental" (Some stale_titles)
             (initial_state [])).
    vm_compute. reflexivity.
  - apply (send_notification_gates open_context [matched_stat]
             "Real-time Incremental" "incremental" (Some fresh_titles)
             (initial_state [])).
    vm_compute. reflexivity.
Defined.

(** X21. [_send_notification_if_needed] answers True exactly when the
    gates are open and the dispatcher reports at least one channel; it puts
    a push on record exactly when, besides, the push window is enabled in
    once-per-day mode and some channel succeeded, and the record is then
    the report type; in every other case the push records are unchanged. *)
Theorem send_notification_records (c : Context) (stats : list Stat)
    (report_type mode : string)
    (new_titles : option (gmap string (list string))) (st : State) :
  let sent :=
    _send_notification_if_needed c stats report_type mode new_titles st in
  let results := dispatch_all c report_type mode stats in
  let recorded :=
    worth_sending c stats new_titles && window_admits c st
    && negb (bool_decide (results = ∅))
    && PUSH_WINDOW_ENABLED (config c) && PUSH_WINDOW_ONCE_PER_DAY (config c)
    && any_success results in
  (sent.1 = Ok true
   <-> worth_sending c stats new_titles && window_admits c st = true
       /\ results <> ∅)
  /\ push_records sent.2
     = push_records st ++ (if recorded then [report_type] else []).
Proof.
  cbv zeta. rewrite send_notification_exact.
  destruct (worth_sending c stats new_titles && window_admits c st); simpl.
  - case_bool_decide as He; simpl.
    + split; [|now rewrite app_nil_r]. split; [discriminate | tauto].
    + destruct (PUSH_WINDOW_ENABLED (config c)); simpl;
        [destruct (PUSH_WINDOW_ONCE_PER_DAY (config c)); simpl;
         [destruct (any_success _); simpl|]|];
        (split; [tauto | reflexivity]).
  - split; [|now rewrite app_nil_r]. split; [discriminate|].
    intros [H _]. discriminate.
Qed.

Lemma send_notification_records_witness :
  push_records
    (_send_notification_if_needed open_context [matched_stat]
       "Real-time Incremental" "incremental" (Some fresh_titles)
       (initial_state [])).2
  = ["Real-time Incremental"].
Proof.
  exact (proj2 (send_notification_records open_context [matched_stat]
                  "Real-time Incremental" "incremental" (Some fresh_titles)
                  (initial_state []))).
Defined.

(** ** A whole run *)

Definition is_save (ev : Event) : bool :=
  match ev with EvSave _ => true | _ => false end.

Definition is_cleanup (ev : Event) : bool :=
  match ev with EvCleanup => true | _ => false end.

Definition is_html (ev : Event) : bool :=
  match ev with EvHtml _ _ => true | _ => false end.

Definition is_summary_html (ev : Event) : bool :=
  match ev with EvHtml _ true => true | _ => false end.

(** The report types put on record, in order. *)
Definition recorded (tr : list Event) : list string :=
  omap (fun ev => match ev with EvRecordPush rt => Some rt | _ => None end) tr.

Ltac mode_cases c :=
  let Hm := fresh "Hm" in
  let Hi := fresh "Hi" in
  let Hc := fresh "Hc" in
  let Hd := fresh "Hd" in
  destruct (report_mode_cases (REPORT_MODE (config c)))
    as [Hm|[Hm|[Hm|(Hi & Hc & Hd)]]];
  [ rewrite Hm, get_mode_strategy_incremental;
    change (String.eqb "incremental" "current") with false
  | rewrite Hm, get_mode_strategy_current;
    change (String.eqb "current" "current") with true
  | rewrite Hm, get_mode_strategy_daily;
    change (String.eqb "daily" "current") with false
  | rewrite (get_mode_strategy_other _ Hi Hc Hd);
    rewrite (proj2 (String.eqb_neq _ _) Hc) ].

(** X22. Every run, in every mode and also the one that ends in an
    exception, saves the crawl first and calls the cleanup last, each
    exactly once. *)
Theorem run_saves_first_cleans_last (c : Context) (records : list string) :
  head (trace_of c records) = Some (EvSave (save_news_data c))
  /\ last (trace_of c records) = Some EvCleanup
  /\ count is_save (trace_of c records) = 1
  /\ count is_cleanup (trace_of c records) = 1.
Proof.
  unfold trace_of, run, _execute_mode_strategy, initial_state, count.
  mode_cases c; run_all; run_done.
Qed.

Lemma send_closed (c : Context) (stats : list Stat) (report_type mode : string)
    (new_titles : option (gmap string (list string))) (st : State) :
  worth_sending c stats new_titles && window_admits c st = false ->
  _send_notification_if_needed c stats report_type mode new_titles st
  = (Ok false, st).
Proof. intros H. rewrite send_notification_exact. now rewrite H. Qed.

(** A run through which a fact [H] about every call of
    [_send_notification_if_needed] is used instead of its case split. *)
Ltac run_with H :=
  repeat (run_simpl;
          first [ rewrite H by (cbn; rewrite ?app_nil_r;
                                first [reflexivity | assumption])
                | run_step ]);
  run_simpl.

Ltac run_close :=
  run_done; rewrite ?app_nil_r; try reflexivity; try lia.

(** X23. With notifications disabled, or with no channel configured, a run
    dispatches nothing and puts no push on record, in every mode and
    whatever the crawl found. *)
Theorem run_without_notification (c : Context) (records : list string) :
  ENABLE_NOTIFICATION (config c) = false
  \/ _has_notification_configured (config c) = false ->
  count is_any_dispatch (trace_of c records) = 0
  /\ recorded (trace_of c records) = []
  /\ push_records (run c (initial_state records)).2 = records.
Proof.
  intros Hoff.
  assert (forall stats rt mode nt st,
             _send_notification_if_needed c stats rt mode nt st
             = (Ok false, st)) as Hsend.
  { intros. apply send_closed. unfold worth_sending.
    destruct Hoff as [-> | ->]; [reflexivity|].
    now rewrite andb_false_r. }
  unfold trace_of, run, _execute_mode_strategy, initial_state, count, recorded.
  mode_cases c; run_with Hsend; run_close.
Qed.

Lemma run_without_notification_witness :
  count is_any_dispatch
    (trace_of
       (sample_context
          {| REPORT_MODE := "daily"; ENABLE_NOTIFICATION := false;
             FEISHU_WEBHOOK_URL := "https://hook.example/1";
             DINGTALK_WEBHOOK_URL := ""; WEWORK_WEBHOOK_URL := "";
             TELEGRAM_BOT_TOKEN := ""; TELEGRAM_CHAT_ID := "";
             EMAIL_FROM := ""; EMAIL_PASSWORD := ""; EMAIL_TO := "";
             NTFY_SERVER_URL := ""; NTFY_TOPIC := "";
             BARK_URL := ""; SLACK_WEBHOOK_URL := "";
             PUSH_WINDOW_ENABLED := false;
             PUSH_WINDOW_START := 0; PUSH_WINDOW_END := 0;
             PUSH_WINDOW_ONCE_PER_DAY := false;
             STORAGE_FORMATS_HTML := true; STORAGE_FORMATS_TXT := false |}
          600 day_of_P1 fresh_titles) []) = 0.
Proof.
  apply run_without_notification. left. reflexivity.
Defined.

Lemma send_pushed (c : Context) (stats : list Stat) (report_type mode : string)
    (new_titles : option (gmap string (list string))) (st : State) :
  PUSH_WINDOW_ENABLED (config c) = true ->
  PUSH_WINDOW_ONCE_PER_DAY (config c) = true ->
  push_records st <> [] ->
  _send_notification_if_needed c stats report_type mode new_titles st
  = (Ok false, st).
Proof.
  intros Hw Ho Hp. apply send_closed. unfold window_admits, no_push_yet.
  rewrite Hw, Ho. destruct (push_records st); [congruence|].
  now rewrite !andb_false_r.
Qed.

(** X24. Once a push is on record for the day, a run with the push window
    in once-per-day mode dispatches no notification and adds no record, in
    every mode and at every time of day: the records a first run leaves shut
    the second. *)
Theorem run_after_push (c : Context) (records : list string) :
  PUSH_WINDOW_ENABLED (config c) = true ->
  PUSH_WINDOW_ONCE_PER_DAY (config c) = true ->
  records <> [] ->
  count is_any_dispatch (trace_of c records) = 0
  /\ push_records (run c (initial_state records)).2 = records.
Proof.
  intros Hw Ho Hrec.
  assert (forall stats rt mode nt st,
             push_records st <> [] ->
             _send_notification_if_needed c stats rt mode nt st
             = (Ok false, st)) as Hsend.
  { intros. now apply send_pushed. }
  unfold trace_of, run, _execute_mode_strategy, initial_state, count.
  mode_cases c; run_with Hsend; run_close.
Qed.

(** The second run of the day: same configuration, an hour later, started
    from the push records the first run left. *)
Lemma run_after_push_witness :
  push_records (run open_context (initial_state [])).2
  = ["Real-time Incremental"]
  /\ count is_any_dispatch
       (trace_of
          (sample_context (sample_config "incremental" true true) 660
             day_of_P1 fresh_titles)
          (push_records (run open_context (initial_state [])).2)) = 0.
Proof.
  split; [vm_compute; reflexivity|].
  apply (run_after_push
           (sample_context (sample_config "incremental" true true) 660
              day_of_P1 fresh_titles));
    [reflexivity | reflexivity | vm_compute; discriminate].
Defined.

Lemma pipeline_without_html (c : Context)
    (data_source : gmap string (list string)) (mode : string)
    (new_titles : gmap string (list string)) (is_daily_summary : bool)
    (st : State) :
  STORAGE_FORMATS_HTML (config c) = false ->
  _run_analysis_pipeline c data_source mode new_titles is_daily_summary st
  = (Ok (count_frequency c data_source mode new_titles, None), st).
Proof. intros H. unfold _run_analysis_pipeline. now rewrite H. Qed.

(** X25. With the HTML format switched off, a run renders no HTML at any
    stage, in every mode; the crawl is still saved and the cleanup still
    runs. *)
Theorem run_without_html (c : Context) (records : list string) :
  STORAGE_FORMATS_HTML (config c) = false ->
  count is_html (trace_of c records) = 0
  /\ count is_save (trace_of c records) = 1
  /\ count is_cleanup (trace_of c records) = 1.
Proof.
  intros Hoff.
  assert (forall d mode nt sum st,
             _run_analysis_pipeline c d mode nt sum st
             = (Ok (count_frequency c d mode nt, None), st)) as Hpipe.
  { intros. now apply pipeline_without_html. }
  unfold trace_of, run, _execute_mode_strategy, initial_state, count.
  mode_cases c; run_with Hpipe; run_close.
Qed.

Lemma run_without_html_witness :
  count is_html
    (trace_of
       (sample_context
          {| REPORT_MODE := "current"; ENABLE_NOTIFICATION := true;
             FEISHU_WEBHOOK_URL := "https://hook.example/1";
             DINGTALK_WEBHOOK_URL := ""; WEWORK_WEBHOOK_URL := "";
             TELEGRAM_BOT_TOKEN := ""; TELEGRAM_CHAT_ID := "";
             EMAIL_FROM := ""; EMAIL_PASSWORD := ""; EMAIL_TO := "";
             NTFY_SERVER_URL := ""; NTFY_TOPIC := "";
             BARK_URL := ""; SLACK_WEBHOOK_URL := "";
             PUSH_WINDOW_ENABLED := false;
             PUSH_WINDOW_START := 0; PUSH_WINDOW_END := 0;
             PUSH_WINDOW_ONCE_PER_DAY := false;
             STORAGE_FORMATS_HTML := false; STORAGE_FORMATS_TXT := false |}
          600 day_of_P1 fresh_titles) []) = 0.
Proof.
  apply run_without_html. reflexivity.
Defined.

(** X26. Outside current mode a failed read-back of the day's data (the
    read raises or finds nothing, the word list itself loading) is not an
    error: the run completes, and its summary stage renders no HTML and
    sends no notification, while the real-time stage works on the crawl it
    holds. *)
Theorem run_without_todays_data (c : Context) (records : list string) :
  REPORT_MODE (config c) <> "current" ->
  load_frequency_words c = None ->
  _load_analysis_data c = None ->
  outcome_of c records = Ok tt
  /\ count is_summary_html (trace_of c records) = 0
  /\ dispatches
       (summary_report_type (_get_mode_strategy (REPORT_MODE (config c))))
       (trace_of c records) = 0.
Proof.
  intros Hmode Hwords Hload.
  unfold outcome_of, trace_of, run, _execute_mode_strategy, initial_state,
    count.
  rewrite Hwords.
  mode_cases c; try congruence; run_with Hload; run_close.
Qed.

Lemma run_without_todays_data_witness :
  outcome_of
    (sample_context (sample_config "daily" false false) 600
       (Raise OtherException) fresh_titles) [] = Ok tt
  /\ count is_any_dispatch
       (trace_of
          (sample_context (sample_config "daily" false false) 600
             (Raise OtherException) fresh_titles) []) = 0.
Proof.
  split; [|vm_compute; reflexivity].
  apply (run_without_todays_data
           (sample_context (sample_config "daily" false false) 600
              (Raise OtherException) fresh_titles) []);
    [discriminate | reflexivity | reflexivity].
Defined.
(** One step through a run that keeps the conditions of the send. *)
Ltac send_exact_step :=
  match goal with
  | |- context [_send_notification_if_needed ?c ?s ?r ?m ?n ?st] =>
      rewrite (send_notification_exact c s r m n st); cbv zeta;
      destruct (worth_sending c s n && window_admits c st) eqn:?;
      [ destruct (bool_decide (dispatch_all c r m s = ∅)) eqn:?;
        [| destruct (PUSH_WINDOW_ENABLED (config c)
                     && PUSH_WINDOW_ONCE_PER_DAY (config c)
                     && any_success (dispatch_all c r m s)) eqn:? ]
      | ]
  end.

Ltac run_exact :=
  repeat (run_simpl; first [ send_exact_step | run_step ]); run_simpl.

Ltac split_andb :=
  repeat match goal with
         | H : _ && _ = true |- _ => apply andb_true_iff in H as [? ?]
         end.

(** X27. The push records after a run are the records before it followed
    by the pushes the run put on record; a run records at most one push,
    only with the push window enabled in once-per-day mode, and only for a
    report type it dispatched. *)
Theorem run_push_records (c : Context) (records : list string) :
  push_records (run c (initial_state records)).2
  = records ++ recorded (trace_of c records)
  /\ length (recorded (trace_of c records)) <= 1
  /\ (recorded (trace_of c records) <> [] ->
      PUSH_WINDOW_ENABLED (config c) = true
      /\ PUSH_WINDOW_ONCE_PER_DAY (config c) = true)
  /\ forallb (fun rt => Nat.ltb 0 (dispatches rt (trace_of c records)))
       (recorded (trace_of c records)) = true.
Proof.
  unfold trace_of, run, _execute_mode_strategy, initial_state, recorded.
  mode_cases c; run_exact; split_andb;
    cbn; rewrite ?app_nil_r; repeat split; intros;
    try reflexivity; try congruence; try lia; auto.
Qed.

Example run_push_records_first_run :
  recorded (trace_of open_context []) = ["Real-time Incremental"].
Proof. vm_compute. reflexivity. Qed.

Lemma run_push_records_witness :
  PUSH_WINDOW_ENABLED (config open_context) = true
  /\ PUSH_WINDOW_ONCE_PER_DAY (config open_context) = true.
Proof.
  apply (run_push_records open_context []).
  vm_compute. discriminate.
Defined.


(** X30. In incremental mode a run that finds no new title sends nothing
    at all: no real-time notification, whatever the keyword matches, and no
    summary notification either; no push is put on record. *)
Theorem run_incremental_nothing_new (c : Context) (records : list string) :
  REPORT_MODE (config c) = "incremental" ->
  (forall platform titles,
      detect_new_titles c !! platform = Some titles -> titles = []) ->
  count is_any_dispatch (trace_of c records) = 0
  /\ recorded (trace_of c records) = []
  /\ push_records (run c (initial_state records)).2 = records.
Proof.
  intros Hmode Hstale.
  assert (forall stats rt mode st,
             _send_notification_if_needed c stats rt mode
               (Some (detect_new_titles c)) st
             = (Ok false, st)) as Hsend.
  { intros. apply send_closed.
    assert (has_new (Some (detect_new_titles c)) = false) as Hnew.
    { apply not_true_is_false. rewrite has_new_true.
      intros (d & platform & titles & [= <-] & Hp & Hne).
      apply Hne. now apply (Hstale platform). }
    unfold worth_sending, _has_valid_content. rewrite Hmode.
    change (String.eqb "incremental" "incremental") with true.
    cbv iota zeta. rewrite Hnew. now rewrite andb_false_r. }
  unfold trace_of, run, _execute_mode_strategy, initial_state, count, recorded.
  rewrite Hmode, get_mode_strategy_incremental.
  change (String.eqb "incremental" "current") with false.
  run_with Hsend; run_close.
Qed.

Lemma run_incremental_nothing_new_witness :
  count is_any_dispatch (trace_of quiet_rerun []) = 0
  /\ recorded (trace_of quiet_rerun []) = []
  /\ push_records (run quiet_rerun (initial_state [])).2 = [].
Proof.
  apply (run_incremental_nothing_new quiet_rerun []); [reflexivity|].
  intros platform titles Hp. unfold quiet_rerun in Hp. simpl in Hp.
  unfold stale_titles in Hp.
  apply lookup_insert_Some in Hp as [[_ <-]|[_ Hp]]; [reflexivity|].
  rewrite lookup_empty in Hp. discriminate.
Defined.

End RunFacts.

(* ===================================================================== *)
(** * __main__.py: the version check                                      *)
(* ===================================================================== *)

Module VersionFacts.

Import Py Version PyFacts AccountsFacts.

Section CheckVersion.

Variable int_ : string -> option Z.

Lemma parse_version_strip (version_str : string) :
  parse_version int_ (strip version_str) = parse_version int_ version_str.
Proof. unfold parse_version. now rewrite strip_idempotent. Qed.

Lemma tuple_lt_irrefl (v : Z * Z * Z) : tuple_lt v v = false.
Proof.
  destruct v as [[a b] c]. unfold tuple_lt.
  rewrite !Z.ltb_irrefl, !Z.eqb_refl. reflexivity.
Qed.

Lemma tuple_lt_asym (v w : Z * Z * Z) :
  tuple_lt v w = true -> tuple_lt w v = false.
Proof.
  destruct v as [[a b] c], w as [[x y] z]. unfold tuple_lt.
  rewrite !orb_true_iff, !andb_true_iff, !Z.ltb_lt, !Z.eqb_eq.
  intros H. apply not_true_is_false.
  rewrite !orb_true_iff, !andb_true_iff, !Z.ltb_lt, !Z.eqb_eq. lia.
Qed.

(** X28. [check_version_update] reports no update when the request fails
    and when the remote text is the current version up to surrounding
    whitespace; it names a remote version exactly when it reports an
    update, and the name is the stripped remote text; and of two versions
    at most one is an update of the other. *)
Theorem check_version_update_spec (current_version text : string) :
  (forall e, check_version_update int_ current_version (Raise e)
             = (false, None))
  /\ (strip current_version = strip text ->
      check_version_update int_ current_version (Ok text) = (false, None))
  /\ ((check_version_update int_ current_version (Ok text)).1 = true
      <-> (check_version_update int_ current_version (Ok text)).2
          = Some (strip text))
  /\ ((check_version_update int_ current_version (Ok text)).1 = false
      <-> (check_version_update int_ current_version (Ok text)).2 = None)
  /\ ((check_version_update int_ current_version (Ok text)).1 = true ->
      (check_version_update int_ text (Ok current_version)).1 = false).
Proof.
  unfold check_version_update. cbv zeta. rewrite !parse_version_strip.
  split; [reflexivity|]. split; [|split; [|split]].
  - intros Heq.
    assert (parse_version int_ current_version = parse_version int_ text) as E.
    { unfold parse_version. now rewrite Heq. }
    now rewrite E, tuple_lt_irrefl.
  - destruct (tuple_lt _ _); simpl; split; congruence.
  - destruct (tuple_lt _ _); simpl; split; congruence.
  - simpl. apply tuple_lt_asym.
Qed.

End CheckVersion.

(** Decimal digits only, for the examples. *)
Fixpoint digits_value (s : list ascii) (acc : Z) : option Z :=
  match s with
  | [] => Some acc
  | c :: s' =>
      let n := nat_of_ascii c in
      if Nat.leb 48 n && Nat.leb n 57
      then digits_value s' (10 * acc + Z.of_nat (n - 48))
      else None
  end.

Definition decimal (s : string) : option Z :=
  match list_ascii_of_string s with
  | [] => None
  | l => digits_value l 0
  end.

Lemma check_version_update_spec_witness :
  check_version_update decimal "3.5.0" (Ok " 3.5.0 ") = (false, None).
Proof.
  apply (check_version_update_spec decimal "3.5.0" " 3.5.0 "). reflexivity.
Defined.

Example check_version_update_newer :
  check_version_update decimal "3.5.0" (Ok "3.10.0") = (true, Some "3.10.0").
Proof. reflexivity. Qed.

Example check_version_update_malformed :
  check_version_update decimal "3.5.0" (Ok "v4") = (false, None).
Proof. reflexivity. Qed.

End VersionFacts.

(* ===================================================================== *)
(** * The two Docker detections                                           *)
(* ===================================================================== *)

Module DockerFacts.

Import Py Docker.

(** X29. The two Docker detections agree when [/.dockerenv] exists (both
    say yes) and when [/proc/1/cgroup] cannot be read for want of the file
    or of the permission; with a readable cgroup file and no
    [/.dockerenv], the manager's answer is whether the file mentions
    "docker" and the analyzer's is whether DOCKER_CONTAINER is "true", so
    either can say yes where the other says no. *)
Theorem docker_detections (mc : Machine) :
  (dockerenv mc = true ->
   is_docker mc = Ok true /\ _detect_docker_environment mc = true)
  /\ (cgroup mc = FileNotFoundError \/ cgroup mc = PermissionError ->
      is_docker mc = Ok (_detect_docker_environment mc))
  /\ (forall text, dockerenv mc = false -> cgroup mc = Contents text ->
      is_docker mc = Ok (contains "docker" text)
      /\ _detect_docker_environment mc = env_says_docker mc).
Proof.
  unfold is_docker, _detect_docker_environment. split; [|split].
  - intros ->. split; [reflexivity|]. now destruct (env_says_docker mc).
  - intros [-> | ->]; destruct (dockerenv mc), (env_says_docker mc);
      reflexivity.
  - intros text -> ->. split; [reflexivity|].
    now destruct (env_says_docker mc).
Qed.

Definition flagged_host : Machine :=
  {| dockerenv := false;
     cgroup := Contents "0::/init.scope";
     docker_container := Some "true" |}.

Definition unflagged_container : Machine :=
  {| dockerenv := false;
     cgroup := Contents "12:pids:/docker/4f1c";
     docker_container := None |}.

Lemma docker_detections_witness :
  (is_docker flagged_host = Ok false
   /\ _detect_docker_environment flagged_host = true)
  /\ (is_docker unflagged_container = Ok true
      /\ _detect_docker_environment unflagged_container = false).
Proof.
  split.
  - apply (docker_detections flagged_host) with (text := "0::/init.scope");
      reflexivity.
  - apply (docker_detections unflagged_container)
      with (text := "12:pids:/docker/4f1c"); reflexivity.
Defined.

End DockerFacts.
